(** * Instagram Data Viewer: a shallow embedding of [app.py]

    The application is one Streamlit script: it loads a spreadsheet into a
    pandas DataFrame, checks that six columns are present, shows them as a
    table and offers the profile URLs built from the [user/username]
    column as a text download.

    The embedding keeps the script's shape.  Every [st.*] call appends one
    event to a log, [st.stop()] ends the run, and an exception raised by
    pandas ends the run as well.  What the pandas and Streamlit calls do is
    written out from their documented behaviour; what the spreadsheet
    parser does, and on which tables [st.dataframe] fails, are parameters
    of [main]. *)

From Stdlib Require Import List String Ascii Bool Arith Permutation DecimalString.
Import ListNotations.
Open Scope string_scope.
Open Scope list_scope.

(** ** Strings as Python builds them *)

(** The line feed of ["\n".join(...)]. *)
Definition LF : string := String (ascii_of_nat 10) EmptyString.

Definition hex_digit (n : nat) : ascii :=
  nth n (list_ascii_of_string "0123456789abcdef") "0"%char.

(** [x in s] for a character and a string. *)
Fixpoint has_char (c : ascii) (s : string) : bool :=
  match s with
  | EmptyString => false
  | String d s' => Ascii.eqb c d || has_char c s'
  end.

(** [repr] of a [str]: single quotes unless the text holds a single quote
    and no double quote; the quote and the backslash are escaped, so are
    the control characters.  This is Python's [repr] on ASCII text.  A
    string is its UTF-8 bytes here and bytes above 127 are copied, which
    is what Python does for a printable code point only; the properties
    that state a printed text are stated for ASCII names. *)
Definition double_quote : ascii := ascii_of_nat 34.

Definition repr_quote (s : string) : ascii :=
  if has_char "'"%char s && negb (has_char double_quote s) then double_quote
  else "'"%char.

Definition repr_char (quote c : ascii) : string :=
  let n := nat_of_ascii c in
  if Ascii.eqb c quote || Ascii.eqb c "\"%char then String "\"%char (String c EmptyString)
  else if (n =? 9)%nat then "\t"
  else if (n =? 10)%nat then "\n"
  else if (n =? 13)%nat then "\r"
  else if (n <? 32)%nat || (n =? 127)%nat then
    String "\"%char (String "x"%char
      (String (hex_digit (n / 16)) (String (hex_digit (n mod 16)) EmptyString)))
  else String c EmptyString.

Fixpoint repr_body (quote : ascii) (s : string) : string :=
  match s with
  | EmptyString => EmptyString
  | String c s' => (repr_char quote c ++ repr_body quote s')%string
  end.

Definition repr_str (s : string) : string :=
  let q := repr_quote s in
  String q (repr_body q s ++ String q EmptyString)%string.

(** [repr] of a list of [str], which is what an f-string prints for it. *)
Definition repr_list (l : list string) : string :=
  ("[" ++ String.concat ", " (map repr_str l) ++ "]")%string.

(** ** Runs of the script *)

Inductive exn : Type :=
| KeyError (labels : list string)
| AttributeError (message : string)
| DataframeError (type_name message : string).

Inductive outcome (A : Type) : Type :=
| Ret (a : A)
| Stopped
| Raised (e : exn).

Arguments Ret {A} a.
Arguments Stopped {A}.
Arguments Raised {A} e.

Inductive column_kind : Type :=
| LinkColumn | TextColumn | CheckboxColumn | NumberColumn | DateColumn.

(** One [st.column_config.*Column(label, help=..., display_text=...)]. *)
Record column : Type := Column {
  kind : column_kind;
  label : string;
  help : option string;
  display_text : option string
}.

(** ** Tables *)

Section Table.

(** The scalars a cell can hold besides text (numbers, booleans, dates). *)
Context {scalar : Type}.

Inductive value : Type :=
| Str (s : string)
| Other (v : scalar).

(** A cell is a value or missing: [None], [NaN] and [NaT] are all the
    [None] of this type. *)
Definition cell : Type := option value.

Definition Series : Type := list cell.

(** A DataFrame: its columns from left to right, each with its label.
    Labels are strings; a label of another type equals no name the
    script looks for and behaves as any other unknown label. *)
Definition DataFrame : Type := list (string * Series).

(** [df.columns] *)
Definition columns (df : DataFrame) : list string := map fst df.

(** [name in labels] *)
Definition contains (name : string) (labels : list string) : bool :=
  existsb (String.eqb name) labels.

(** The columns of [df] labelled [key], in table order. *)
Definition labelled (df : DataFrame) (key : string) : DataFrame :=
  filter (fun c => String.eqb (fst c) key) df.

(** [series.dropna().tolist()] *)
Fixpoint dropna (s : Series) : list value :=
  match s with
  | [] => []
  | None :: s' => dropna s'
  | Some v :: s' => v :: dropna s'
  end.

(** What the script puts on the page, one constructor per [st.*] call with
    the arguments the script passes. *)
Inductive event : Type :=
| st_set_page_config (page_title page_icon layout : string)
| st_file_uploader (label type : string)
| st_error (body : string)
| st_header (body : string) (divider : bool)
| st_dataframe (data : DataFrame) (key : string) (column_order : list string)
            (column_config : list (string * column)) (use_container_width : bool)
| st_download_button (label data file_name mime : string).

(** A piece of the script: from the page so far to an outcome and the page
    after it. *)
Definition App (A : Type) : Type := list event -> outcome A * list event.

Definition ret {A} (a : A) : App A := fun page => (Ret a, page).

Definition bind {A B} (m : App A) (k : A -> App B) : App B :=
  fun page =>
    match m page with
    | (Ret a, page') => k a page'
    | (Stopped, page') => (Stopped, page')
    | (Raised e, page') => (Raised e, page')
    end.

Definition emit (e : event) : App unit := fun page => (Ret tt, page ++ [e]).

(** [st.stop()] *)
Definition st_stop {A} : App A := fun page => (Stopped, page).

Definition raise {A} (e : exn) : App A := fun page => (Raised e, page).

End Table.

Arguments value : clear implicits.
Arguments cell : clear implicits.
Arguments Series : clear implicits.
Arguments DataFrame : clear implicits.
Arguments event : clear implicits.
Arguments App : clear implicits.

Declare Scope app_scope.
Delimit Scope app_scope with app.
Notation "x <- m ;; k" := (bind m (fun x => k))
  (at level 61, m at next level, right associativity) : app_scope.
Notation "m ;; k" := (bind m (fun _ => k))
  (at level 61, right associativity) : app_scope.
Open Scope app_scope.

(** ** pandas indexing and the Streamlit table *)

Section Indexing.

Context {scalar : Type}.

(** What [df[key]] gives for one label: a Series when one column carries
    the label, a DataFrame when several do. *)
Inductive item : Type :=
| OneSeries (s : Series scalar)
| Frame (d : DataFrame scalar).

(** [df[key]] *)
Definition getitem (df : DataFrame scalar) (key : string) : App scalar item :=
  match labelled df key with
  | [] => raise (KeyError [key])
  | [c] => ret (OneSeries (snd c))
  | d => ret (Frame d)
  end.

(** The labels of a list, each once, in the order they first occur. *)
Fixpoint unique (labels : list string) : list string :=
  match labels with
  | [] => []
  | name :: labels' =>
      name :: filter (fun other => negb (String.eqb other name)) (unique labels')
  end.

(** [df[keys]]: the columns carrying each label, label after label.  A
    label that no column carries raises: the [KeyError] shows the whole
    list of keys when no key is a label, and otherwise the keys that
    are not, each once. *)
Definition getitem_list (df : DataFrame scalar) (keys : list string)
  : App scalar (DataFrame scalar) :=
  match filter (fun k => negb (contains k (columns df))) keys with
  | [] => ret (flat_map (labelled df) keys)
  | missing =>
      if (List.length missing =? List.length keys)%nat then raise (KeyError keys)
      else raise (KeyError (unique missing))
  end.

(** The columns [st.dataframe] shows for [column_order], as Streamlit
    documents the argument: the listed columns of the data in the
    listed order, every other column hidden. *)
Definition shown_columns (data : DataFrame scalar) (column_order : list string)
  : DataFrame scalar :=
  flat_map (labelled data) column_order.

End Indexing.

Arguments item : clear implicits.

(** ** The script *)

Definition get_required_columns : list string :=
  [ "user/username";
    "text";
    "comment_like_count";
    "user/is_verified";
    "created_at";
    "user_profile_url" ].

Definition get_column_order : list string :=
  [ "user_profile_url";
    "user/username";
    "user/is_verified";
    "comment_like_count";
    "text";
    "created_at" ].

(** The dict of [get_column_config], in the order it is written. *)
Definition get_column_config : list (string * column) :=
  [ ("user/profile_pic_url",
     Column LinkColumn "Foto de perfil" (Some "Foto de perfil do usuário") (Some "Ver foto"));
    ("user_profile_url", Column LinkColumn "Perfil do usuário" None (Some "Ver perfil"));
    ("user/username", Column TextColumn "Usuário" None None);
    ("user/is_verified", Column CheckboxColumn "Verificado" None None);
    ("comment_like_count", Column NumberColumn "Curtidas" None None);
    ("text", Column TextColumn "Comentário" None None);
    ("created_at", Column DateColumn "Data do comentário" None None) ].

(** [config[name]] read as [config.get(name)]. *)
Fixpoint lookup (name : string) (config : list (string * column)) : option column :=
  match config with
  | [] => None
  | (k, c) :: config' => if String.eqb name k then Some c else lookup name config'
  end.

Definition missing_message : string :=
  "As seguintes colunas estão faltando no arquivo: ".

Definition not_found_message : string :=
  "A coluna 'user/username' não foi encontrada no arquivo XLSX.".

Definition base_url : string := "https://www.instagram.com/".

Section Script.

Context {scalar : Type}.

(** [str(v)] for the scalars that are not text. *)
Variable format : scalar -> string.

(** The exception [st.dataframe] raises on a table, if any, by type
    name and message: a [ValueError] when two columns share a label, an
    Arrow error when a column cannot be converted. *)
Variable dataframe_error : DataFrame scalar -> option (string * string).

(** The uploaded file, and [pd.read_excel] on it: a table, or the text of
    the exception it raised. *)
Context {file : Type}.
Variable read_excel : file -> DataFrame scalar + string.

(** [f"{v}"] *)
Definition fstring (v : value scalar) : string :=
  match v with
  | Str s => s
  | Other o => format o
  end.

Definition configure_page : App scalar unit :=
  emit (st_set_page_config "Instagram Data Viewer" "✨" "wide").

(** [@st.cache_data] keeps the table of a file already parsed; a run sees
    the same table with or without it. *)
Definition load_data (file_path : file) : App scalar (option (DataFrame scalar)) :=
  match read_excel file_path with
  | inl df => ret (Some df)
  | inr e =>
      emit (st_error ("Erro ao carregar arquivo: " ++ e)%string) ;;
      ret None
  end.

Definition validate_columns (df : DataFrame scalar) (required_columns : list string)
  : App scalar bool :=
  let missing := filter (fun col => negb (contains col (columns df))) required_columns in
  match missing with
  | _ :: _ =>
      emit (st_error (missing_message ++ repr_list missing)%string) ;;
      ret false
  | [] => ret true
  end.

Definition display_data (df : DataFrame scalar) (required_columns : list string)
  : App scalar unit :=
  emit (st_header "Dados do Instagram" true) ;;
  data <- getitem_list df required_columns ;;
  match dataframe_error data with
  | Some (type_name, message) => raise (DataframeError type_name message)
  | None =>
      emit (st_dataframe data "dataframe-instagram" get_column_order
              get_column_config true)
  end.

Definition export_usernames (df : DataFrame scalar) : App scalar unit :=
  if contains "user/username" (columns df) then
    col <- getitem df "user/username" ;;
    match col with
    | OneSeries s =>
        let usernames := dropna s in
        let instagram_urls :=
          map (fun username => (base_url ++ fstring username)%string) usernames in
        let urls_text := String.concat LF instagram_urls in
        emit (st_download_button "Exportar user/username como texto" urls_text
                "usernames.txt" "text/plain")
    | Frame _ => raise (AttributeError "'DataFrame' object has no attribute 'tolist'")
    end
  else
    emit (st_error not_found_message).

(** [uploaded_file] is what [st.file_uploader] returns in this run. *)
Definition main (uploaded_file : option file) : App scalar unit :=
  configure_page ;;
  emit (st_file_uploader "Escolha um arquivo XLSX" "xlsx") ;;
  df <- match uploaded_file with
        | Some f => load_data f
        | None => st_stop
        end ;;
  df <- match df with
        | None => st_stop
        | Some df => ret df
        end ;;
  let required_columns := get_required_columns in
  ok <- validate_columns df required_columns ;;
  (if negb ok then st_stop else ret tt) ;;
  display_data df required_columns ;;
  export_usernames df.

End Script.

(** ** Notions the properties are stated with *)

Section Notions.

Context {scalar : Type}.

(** The labels of a loaded table are distinct: [read_excel] renames a
    header that repeats an earlier one. *)
Definition unique_labels (df : DataFrame scalar) : Prop := NoDup (columns df).

(** The projection of a table on a list of names, as the specification
    words it: for each name in turn, the column of the table so named. *)
Definition projection (df : DataFrame scalar) (names : list string) : DataFrame scalar :=
  flat_map (fun name =>
              match find (fun c => String.eqb (fst c) name) df with
              | Some c => [c]
              | None => []
              end) names.

(** A name between single quotes, as the error message shows it. *)
Definition quoted (name : string) : string := ("'" ++ name ++ "'")%string.

(** Events of the Table Renderer and of the Exporter. *)
Definition is_table (e : event scalar) : bool :=
  match e with
  | st_dataframe _ _ _ _ _ => true
  | _ => false
  end.

(** Whatever [display_data] can put on the page: its header, its table. *)
Definition is_render (e : event scalar) : bool :=
  match e with
  | st_header _ _ => true
  | st_dataframe _ _ _ _ _ => true
  | _ => false
  end.

Definition is_download (e : event scalar) : bool :=
  match e with
  | st_download_button _ _ _ _ => true
  | _ => false
  end.

Definition is_export (e : event scalar) : bool :=
  match e with
  | st_download_button _ _ _ _ => true
  | st_error body => String.eqb body not_found_message
  | _ => false
  end.

(** A column as [read_excel] loads it: an empty cell and a cell holding
    the empty string are both read as missing, so no cell of a loaded
    column holds the empty string. *)
Definition loaded (s : Series scalar) : Prop := ~ In (Some (Str "")) s.

(** A text cell that holds the empty string. *)
Definition is_empty_text (v : value scalar) : bool :=
  match v with
  | Str EmptyString => true
  | _ => false
  end.

(** The payload that leaves out the empty cells with the missing ones:
    the URLs of the cells that are neither. *)
Definition payload_without_empty (format : scalar -> string) (s : Series scalar)
  : string :=
  String.concat LF
    (map (fun v => (base_url ++ fstring format v)%string)
         (filter (fun v => negb (is_empty_text v)) (dropna s))).

(** The page before the loader runs. *)
Definition opening : list (event scalar) :=
  [ st_set_page_config "Instagram Data Viewer" "✨" "wide";
    st_file_uploader "Escolha um arquivo XLSX" "xlsx" ].

(** The runs the orchestrator cuts short: no file was given, the loader
    gave no table, or the validator answered [False]. *)
Inductive halts_early {file : Type} (read_excel : file -> DataFrame scalar + string)
  : option file -> Prop :=
| no_file : halts_early read_excel None
| no_table f e : read_excel f = inr e -> halts_early read_excel (Some f)
| invalid_table f df page :
    read_excel f = inl df ->
    fst (validate_columns df get_required_columns page) = Ret false ->
    halts_early read_excel (Some f).

End Notions.

(** ** Reading the page and the download back *)

(** [payload.split("\n")] *)
Fixpoint split_lines (payload : string) : list string :=
  match payload with
  | EmptyString => [EmptyString]
  | String c rest =>
      if Ascii.eqb c (ascii_of_nat 10) then EmptyString :: split_lines rest
      else match split_lines rest with
           | line :: lines => String c line :: lines
           | [] => [String c EmptyString]
           end
  end.

(** A text of ASCII characters. *)
Fixpoint ascii_text (s : string) : bool :=
  match s with
  | EmptyString => true
  | String c rest => (nat_of_ascii c <? 128)%nat && ascii_text rest
  end.

(** A text without a line feed in it. *)
Definition one_line (s : string) : bool := negb (has_char (ascii_of_nat 10) s).

Section Reading.

Context {scalar : Type}.

Definition is_error (e : event scalar) : bool :=
  match e with
  | st_error _ => true
  | _ => false
  end.

(** The two calls every run starts with. *)
Definition is_setup (e : event scalar) : bool :=
  match e with
  | st_set_page_config _ _ _ => true
  | st_file_uploader _ _ => true
  | _ => false
  end.

End Reading.

(** Decidable forms of the conditions on tables. *)
Fixpoint distinct (labels : list string) : bool :=
  match labels with
  | [] => true
  | name :: labels' => negb (contains name labels') && distinct labels'
  end.

Definition carries_all (labels names : list string) : bool :=
  forallb (fun name => contains name labels) names.

Definition lacks_exactly (labels missing names : list string) : bool :=
  forallb (fun name => Bool.eqb (contains name labels) (negb (contains name missing)))
          names.

(** ** Sample tables *)

Module Samples.

(** Booleans and counts, printed as Python prints them. *)
Inductive py : Type :=
| PyBool (b : bool)
| PyInt (n : nat).

Definition str (v : py) : string :=
  match v with
  | PyBool true => "True"
  | PyBool false => "False"
  | PyInt n => NilEmpty.string_of_uint (Nat.to_uint n)
  end.

Definition text (s : string) : cell py := Some (Str s).

(** A full export: the six columns in an order of its own, and one more. *)
Definition comments : DataFrame py :=
  [ ("id", [Some (Other (PyInt 17)); Some (Other (PyInt 18)); Some (Other (PyInt 19))]);
    ("text", [text "que lindo"; text "top"; None]);
    ("user/username", [text "alice"; None; text "bob"]);
    ("created_at", [text "2024-03-01"; text "2024-03-02"; text "2024-03-02"]);
    ("user/is_verified",
     [Some (Other (PyBool true)); Some (Other (PyBool false)); Some (Other (PyBool false))]);
    ("comment_like_count",
     [Some (Other (PyInt 12)); Some (Other (PyInt 0)); Some (Other (PyInt 3))]);
    ("user_profile_url",
     [text "https://www.instagram.com/alice"; None; text "https://www.instagram.com/bob"]) ].

(** The same columns from right to left. *)
Definition comments_reordered : DataFrame py := rev comments.

(** Two of the six columns only. *)
Definition partial : DataFrame py :=
  [ ("text", [text "que lindo"]);
    ("user/username", [text "alice"]) ].

Definition partial_missing : list string :=
  [ "comment_like_count"; "user/is_verified"; "created_at"; "user_profile_url" ].

(** No identifier column. *)
Definition anonymous : DataFrame py :=
  [ ("text", [text "que lindo"; text "top"]) ].

(** An identifier column with no value in it. *)
Definition blank : DataFrame py :=
  [ ("user/username", [None; None]);
    ("text", [text "que lindo"; text "top"]) ].

(** [st.dataframe] on tables of these cells: it fails on a repeated
    label and takes every other table. *)
Definition sample_dataframe_error (data : DataFrame py) : option (string * string) :=
  if distinct (columns data) then None
  else Some ("ValueError",
             ("Duplicate column names found: " ++ repr_list (columns data))%string).

(** A parser over three file names. *)
Definition read_sample (name : string) : DataFrame py + string :=
  if String.eqb name "comments.xlsx" then inl comments
  else if String.eqb name "partial.xlsx" then inl partial
  else inr "File is not a zip file".

(** Two columns under the identifier label, which no parsed file has. *)
Definition doubled : DataFrame py :=
  [ ("user/username", [text "alice"]);
    ("text", [text "que lindo"]);
    ("user/username", [text "bob"]) ].

(** The rows of [comments] under the identifier label, twice over. *)
Definition first_rows : DataFrame py := [ ("user/username", [text "alice"; None]) ].
Definition last_rows : DataFrame py := [ ("user/username", [None; text "bob"; text "carol"]) ].
Definition all_rows : DataFrame py :=
  [ ("user/username", [text "alice"; None; None; text "bob"; text "carol"]) ].

End Samples.

(** ** Properties *)

Section ListFacts.

Context {scalar : Type}.
Implicit Types (df : DataFrame scalar) (name : string).

Lemma contains_In name labels : contains name labels = true <-> In name labels.
Proof.
  unfold contains. rewrite existsb_exists. split.
  - intros [x [Hin Heq]]. apply String.eqb_eq in Heq. now subst.
  - intros Hin. exists name. split; [assumption | apply String.eqb_refl].
Qed.

Lemma contains_false name labels : contains name labels = false <-> ~ In name labels.
Proof.
  rewrite <- contains_In. destruct (contains name labels); split; congruence.
Qed.

Lemma labelled_nil df name : ~ In name (columns df) -> labelled df name = [].
Proof.
  induction df as [|[k s] df IH]; simpl; intros Hn; [reflexivity|].
  destruct (String.eqb_spec k name) as [->|Hne].
  - exfalso. apply Hn. now left.
  - apply IH. intros Hin. apply Hn. now right.
Qed.

Lemma labelled_unique df name s :
  unique_labels df -> In (name, s) df -> labelled df name = [(name, s)].
Proof.
  unfold unique_labels.
  induction df as [|[k t] df IH]; simpl; intros Hnd Hin; [contradiction|].
  inversion Hnd as [|? ? Hk Hnd']; subst.
  destruct Hin as [Heq|Hin].
  - inversion Heq; subst. rewrite String.eqb_refl.
    now rewrite (labelled_nil df name Hk).
  - destruct (String.eqb_spec k name) as [->|Hne].
    + exfalso. apply Hk. change name with (fst (name, s)). now apply in_map.
    + now apply IH.
Qed.

Lemma In_columns df name : In name (columns df) -> exists s, In (name, s) df.
Proof.
  unfold columns. rewrite in_map_iff. intros [[k s] [Hk Hin]].
  simpl in Hk. subst. now exists s.
Qed.

Lemma labelled_projection df names :
  unique_labels df -> flat_map (labelled df) names = projection df names.
Proof.
  intros Hnd. unfold projection. apply flat_map_ext. intros name.
  destruct (find (fun c => String.eqb (fst c) name) df) as [[k s]|] eqn:Hf.
  - apply find_some in Hf. destruct Hf as [Hin Hk]. simpl in Hk.
    apply String.eqb_eq in Hk. subst. now apply labelled_unique.
  - apply labelled_nil. intros Hin. apply In_columns in Hin. destruct Hin as [s Hin].
    apply (find_none _ _ Hf) in Hin. simpl in Hin. now rewrite String.eqb_refl in Hin.
Qed.

Lemma labelled_Permutation df df' name :
  unique_labels df -> Permutation df df' -> labelled df' name = labelled df name.
Proof.
  intros Hnd Hp.
  assert (Hnd' : unique_labels df').
  { unfold unique_labels, columns in *.
    eapply Permutation_NoDup; [apply Permutation_map; eassumption | assumption]. }
  destruct (in_dec string_dec name (columns df)) as [Hin|Hout].
  - apply In_columns in Hin. destruct Hin as [s Hin].
    rewrite (labelled_unique df name s Hnd Hin).
    apply (labelled_unique df' name s Hnd'). eapply Permutation_in; eassumption.
  - rewrite (labelled_nil df name Hout). apply labelled_nil. intros Hin. apply Hout.
    unfold columns in *. eapply Permutation_in; [|eassumption].
    apply Permutation_map. now apply Permutation_sym.
Qed.

Lemma dropna_In (s : Series scalar) v : In v (dropna s) <-> In (Some v) s.
Proof.
  induction s as [|[w|] s IH]; simpl.
  - tauto.
  - rewrite IH. split; intros [H|H]; auto; left; congruence.
  - rewrite IH. split; [auto | intros [H|H]; [discriminate | assumption]].
Qed.

Lemma distinct_NoDup labels : distinct labels = true -> NoDup labels.
Proof.
  induction labels as [|name labels IH]; simpl; intros H; constructor;
    apply andb_true_iff in H; destruct H as [Hn Hd].
  - apply contains_false. now destruct (contains name labels).
  - now apply IH.
Qed.

Lemma carries_all_spec labels names :
  carries_all labels names = true ->
  forall name, In name names -> In name labels.
Proof.
  unfold carries_all. rewrite forallb_forall. intros H name Hin.
  now apply contains_In, H.
Qed.

Lemma lacks_exactly_spec labels missing names :
  lacks_exactly labels missing names = true ->
  forall name, In name names -> (In name labels <-> ~ In name missing).
Proof.
  unfold lacks_exactly. rewrite forallb_forall. intros H name Hin.
  specialize (H name Hin). rewrite <- contains_In, <- contains_false.
  destruct (contains name labels), (contains name missing);
    simpl in H; split; congruence.
Qed.

End ListFacts.

Section Constants.

Lemma required_columns_NoDup : NoDup get_required_columns.
Proof.
  unfold get_required_columns.
  repeat (constructor; [simpl; intuition discriminate|]). constructor.
Qed.

Lemma column_order_NoDup : NoDup get_column_order.
Proof.
  unfold get_column_order.
  repeat (constructor; [simpl; intuition discriminate|]). constructor.
Qed.

Lemma column_order_required name :
  In name get_column_order <-> In name get_required_columns.
Proof. unfold get_column_order, get_required_columns. simpl. tauto. Qed.

Lemma required_repr : Forall (fun name => repr_str name = quoted name) get_required_columns.
Proof. unfold get_required_columns. repeat constructor. Qed.

(** C10: the display order is a permutation of the six required names,
    each of them listed once, and the column configuration has an entry
    for every required name, hence for every column the table shows. *)
Theorem constant_tables_consistent :
  Permutation get_column_order get_required_columns /\
  NoDup get_required_columns /\
  List.length get_required_columns = 6 /\
  Forall (fun name => exists c, lookup name get_column_config = Some c)
         get_required_columns /\
  Forall (fun name => exists c, lookup name get_column_config = Some c)
         get_column_order.
Proof.
  split; [|split; [|split; [|split]]].
  - apply NoDup_Permutation.
    + exact column_order_NoDup.
    + exact required_columns_NoDup.
    + exact column_order_required.
  - exact required_columns_NoDup.
  - reflexivity.
  - unfold get_required_columns. repeat constructor; eexists; reflexivity.
  - unfold get_column_order. repeat constructor; eexists; reflexivity.
Qed.

End Constants.

Section Validator.

Context {scalar : Type}.
Implicit Types (df : DataFrame scalar) (page : list (event scalar)).

Lemma validate_columns_true df required_columns page :
  fst (validate_columns df required_columns page) = Ret true <->
  (forall name, In name required_columns -> In name (columns df)).
Proof.
  unfold validate_columns.
  destruct (filter _ required_columns) as [|m ms] eqn:Hf.
  - split; [intros _ name Hin | reflexivity].
    destruct (contains name (columns df)) eqn:Hc; [now apply contains_In|].
    assert (Hm : In name (filter (fun col => negb (contains col (columns df)))
                                 required_columns)).
    { apply filter_In. now rewrite Hc. }
    rewrite Hf in Hm. contradiction.
  - split; [discriminate|]. intros Hall. exfalso.
    assert (Hm : In m (filter (fun col => negb (contains col (columns df)))
                              required_columns)) by (rewrite Hf; now left).
    apply filter_In in Hm. destruct Hm as [Hin Hc].
    apply Hall, contains_In in Hin. rewrite Hin in Hc. discriminate.
Qed.

Lemma validate_columns_accepts_all df page :
  (forall name, In name get_required_columns -> In name (columns df)) ->
  validate_columns df get_required_columns page = (Ret true, page).
Proof.
  intros Hall.
  apply (validate_columns_true df get_required_columns page) in Hall.
  unfold validate_columns in *.
  destruct (filter _ get_required_columns); [reflexivity | discriminate].
Qed.

(** C3: a table that carries every required name passes validation, and
    the validator puts nothing on the page.  Only membership of the six
    names is asked for, so more columns and another column order change
    nothing. *)
Theorem validate_columns_accepts df page :
  (forall name, In name get_required_columns -> In name (columns df)) ->
  validate_columns df get_required_columns page = (Ret true, page).
Proof. exact (validate_columns_accepts_all df page). Qed.

(** C2: when the required names that the table lacks are the non-empty
    list [missing], given in the order of the required list, the
    validator returns [False] and its one error message lists exactly
    [missing], in that order. *)
Theorem validate_columns_reports_missing df (missing : list string) page :
  missing <> [] ->
  filter (fun name => contains name missing) get_required_columns = missing ->
  (forall name, In name get_required_columns ->
                (In name (columns df) <-> ~ In name missing)) ->
  validate_columns df get_required_columns page =
    (Ret false,
     page ++ [st_error (missing_message ++ "["
                          ++ String.concat ", " (map quoted missing) ++ "]")%string]).
Proof.
  intros Hne Horder Hlacks.
  assert (Hf : filter (fun col => negb (contains col (columns df)))
                      get_required_columns = missing).
  { etransitivity; [|exact Horder].
    apply filter_ext_in. intros name Hin.
    specialize (Hlacks name Hin).
    destruct (contains name (columns df)) eqn:Hc, (contains name missing) eqn:Hm;
      try reflexivity; exfalso.
    - apply contains_In in Hc, Hm. now apply Hlacks in Hc.
    - apply contains_false in Hc, Hm. apply Hc, Hlacks, Hm. }
  assert (Hq : map repr_str missing = map quoted missing).
  { apply map_ext_in. intros name Hin. rewrite <- Horder in Hin.
    apply filter_In in Hin. destruct Hin as [Hin _].
    revert name Hin. apply Forall_forall. exact required_repr. }
  unfold validate_columns. rewrite Hf.
  destruct missing as [|m ms]; [contradiction|].
  unfold bind, emit, ret, repr_list. now rewrite Hq.
Qed.

End Validator.

Section Exporter.

Context {scalar : Type}.
Variable format : scalar -> string.
Implicit Types (df : DataFrame scalar) (page : list (event scalar)).

Lemma export_usernames_present df s page :
  unique_labels df ->
  In ("user/username", s) df ->
  export_usernames format df page =
    (Ret tt,
     page ++ [st_download_button "Exportar user/username como texto"
                (String.concat LF
                   (map (fun v => (base_url ++ fstring format v)%string) (dropna s)))
                "usernames.txt" "text/plain"]).
Proof.
  intros Hnd Hin. unfold export_usernames.
  assert (Hc : contains "user/username" (columns df) = true).
  { apply contains_In. change "user/username" with (fst ("user/username", s)).
    now apply in_map. }
  rewrite Hc. unfold bind, getitem.
  now rewrite (labelled_unique df "user/username" s Hnd Hin).
Qed.

Lemma export_usernames_missing_column df page :
  ~ In "user/username" (columns df) ->
  export_usernames format df page = (Ret tt, page ++ [st_error not_found_message]).
Proof.
  intros Hout. unfold export_usernames.
  apply contains_false in Hout. now rewrite Hout.
Qed.


Lemma filter_all {A : Type} (keep : A -> bool) (l : list A) :
  (forall x, In x l -> keep x = true) -> filter keep l = l.
Proof.
  induction l as [|x l IH]; intros Hall; [reflexivity|]. simpl.
  rewrite (Hall x (or_introl eq_refl)). f_equal.
  apply IH. intros y Hy. apply Hall. now right.
Qed.

Lemma loaded_not_empty (s : Series scalar) (v : value scalar) :
  loaded s -> In (Some v) s -> is_empty_text v = false.
Proof.
  intros Hl Hin. destruct v as [[|c t]|o]; try reflexivity.
  exfalso. exact (Hl Hin).
Qed.

(** C5: in a loaded table, where an empty cell is a missing cell, the
    exported URL list leaves the missing and the empty out: every line
    of the payload comes from a cell of the identifier column that is
    neither missing nor the empty string, one line per such cell, and
    no text cell gives the bare base prefix. *)
Theorem export_usernames_excludes_missing df s page :
  unique_labels df ->
  In ("user/username", s) df ->
  loaded s ->
  exists urls,
    export_usernames format df page =
      (Ret tt,
       page ++ [st_download_button "Exportar user/username como texto"
                  (String.concat LF urls) "usernames.txt" "text/plain"]) /\
    urls = map (fun v => ("https://www.instagram.com/" ++ fstring format v)%string)
               (filter (fun v => negb (is_empty_text v)) (dropna s)) /\
    String.concat LF urls = payload_without_empty format s /\
    List.length urls =
      List.length (filter (fun c => match c with Some _ => true | None => false end) s) /\
    (forall line, In line urls ->
       exists v, In (Some v) s /\ v <> Str "" /\
                 line = ("https://www.instagram.com/" ++ fstring format v)%string) /\
    (forall text, In (Some (Str text)) s ->
       ("https://www.instagram.com/" ++ text)%string <> "https://www.instagram.com/").
Proof.
  intros Hnd Hin Hl.
  assert (Hkeep : filter (fun v => negb (is_empty_text v)) (dropna s) = dropna s).
  { apply filter_all. intros v Hv. apply dropna_In in Hv.
    now rewrite (loaded_not_empty s v Hl Hv). }
  eexists. split; [|split; [reflexivity|split; [|split; [|split]]]].
  - rewrite Hkeep. exact (export_usernames_present df s page Hnd Hin).
  - reflexivity.
  - rewrite Hkeep, length_map. clear.
    induction s as [|[v|] s IH]; simpl; congruence.
  - rewrite Hkeep. intros line Hline. apply in_map_iff in Hline.
    destruct Hline as [v [<- Hv]]. apply dropna_In in Hv.
    exists v. split; [exact Hv|]. split; [|reflexivity].
    intros ->. exact (Hl Hv).
  - intros text Htext Heq. apply Hl.
    simpl in Heq. repeat (injection Heq as Heq). now subst.
Qed.

(** C6: without the identifier column the exporter puts the
    column-not-found error on the page and no download; it does so
    whatever list of names the validator was run with before, and
    whatever the validator answered. *)
Theorem export_usernames_absent df page :
  ~ In "user/username" (columns df) ->
  export_usernames format df page =
    (Ret tt,
     page ++ [st_error "A coluna 'user/username' não foi encontrada no arquivo XLSX."]) /\
  existsb is_download
    [st_error (scalar:=scalar)
       "A coluna 'user/username' não foi encontrada no arquivo XLSX."] = false /\
  (forall required_columns,
     let validated := snd (validate_columns df required_columns page) in
     export_usernames format df validated =
       (Ret tt, validated ++ [st_error not_found_message])).
Proof.
  intros Hout. split; [|split].
  - exact (export_usernames_missing_column df page Hout).
  - reflexivity.
  - intros required_columns validated.
    exact (export_usernames_missing_column df validated Hout).
Qed.

(** C9: when the identifier column is present and all its cells are
    missing, the exporter offers the empty payload as the download named
    usernames.txt, and raises nothing. *)
Theorem export_usernames_no_values df s page :
  unique_labels df ->
  In ("user/username", s) df ->
  (forall c, In c s -> c = None) ->
  export_usernames format df page =
    (Ret tt,
     page ++ [st_download_button "Exportar user/username como texto" ""
                "usernames.txt" "text/plain"]).
Proof.
  intros Hnd Hin Hnone.
  rewrite (export_usernames_present df s page Hnd Hin).
  assert (Hd : dropna s = []).
  { clear Hin. induction s as [|c s IH]; [reflexivity|].
    rewrite (Hnone c (or_introl eq_refl)). simpl.
    apply IH. intros c' Hc'. apply Hnone. now right. }
  now rewrite Hd.
Qed.

End Exporter.

Section Renderer.

Context {scalar : Type}.
Variable dataframe_error : DataFrame scalar -> option (string * string).
Implicit Types (df : DataFrame scalar) (page : list (event scalar)).

Lemma getitem_list_present df names page :
  (forall name, In name names -> In name (columns df)) ->
  getitem_list df names page = (Ret (flat_map (labelled df) names), page).
Proof.
  intros Hall. unfold getitem_list.
  destruct (filter _ names) as [|m ms] eqn:Hf; [reflexivity|]. exfalso.
  assert (Hm : In m (filter (fun k => negb (contains k (columns df))) names))
    by (rewrite Hf; now left).
  apply filter_In in Hm. destruct Hm as [Hin Hc].
  apply Hall, contains_In in Hin. rewrite Hin in Hc. discriminate.
Qed.

Lemma columns_selection df names :
  unique_labels df ->
  (forall name, In name names -> In name (columns df)) ->
  columns (flat_map (labelled df) names) = names.
Proof.
  intros Hnd. induction names as [|name names IH]; intros Hall; [reflexivity|].
  destruct (In_columns df name (Hall name (or_introl eq_refl))) as [s Hin].
  simpl. rewrite (labelled_unique df name s Hnd Hin). simpl. f_equal.
  apply IH. intros k Hk. apply Hall. now right.
Qed.

Lemma labelled_selection df names name :
  unique_labels df -> NoDup names ->
  (forall k, In k names -> In k (columns df)) ->
  In name names ->
  labelled (flat_map (labelled df) names) name = labelled df name.
Proof.
  intros Hnd Hnames Hall Hin.
  destruct (In_columns df name (Hall name Hin)) as [s Hs].
  rewrite (labelled_unique df name s Hnd Hs).
  apply labelled_unique.
  - unfold unique_labels. now rewrite columns_selection.
  - apply in_flat_map. exists name. split; [assumption|].
    rewrite (labelled_unique df name s Hnd Hs). now left.
Qed.

Lemma shown_selection df names order :
  unique_labels df -> NoDup names ->
  (forall k, In k names -> In k (columns df)) ->
  (forall k, In k order -> In k names) ->
  shown_columns (flat_map (labelled df) names) order = flat_map (labelled df) order.
Proof.
  intros Hnd Hnames Hall Hsub. unfold shown_columns.
  rewrite (flat_map_concat_map (labelled df) order).
  rewrite (flat_map_concat_map (labelled (flat_map (labelled df) names)) order).
  f_equal. apply map_ext_in.
  intros name Hin. apply labelled_selection; auto.
Qed.

Lemma display_data_present df names page :
  (forall name, In name names -> In name (columns df)) ->
  display_data dataframe_error df names page =
    match dataframe_error (flat_map (labelled df) names) with
    | None =>
        (Ret tt,
         page ++ [st_header "Dados do Instagram" true;
                  st_dataframe (flat_map (labelled df) names) "dataframe-instagram"
                    get_column_order get_column_config true])
    | Some (type_name, message) =>
        (Raised (DataframeError type_name message),
         page ++ [st_header "Dados do Instagram" true])
    end.
Proof.
  intros Hall. unfold display_data, bind, emit.
  rewrite getitem_list_present by assumption.
  destruct (dataframe_error _) as [[type_name message]|]; [reflexivity|].
  unfold emit. now rewrite <- app_assoc.
Qed.

(** C1: for a table that passes validation, the renderer hands
    [st.dataframe] the six required columns, and no other, together with
    the fixed display order.  When [st.dataframe] takes them, the table
    on the page is the projection of the loaded table on the six names
    in display order: its labels are the display order and none lies
    outside the six.  When it does not, its exception ends the renderer
    with the header alone on the page.  A table with the same columns in
    another order is rendered the same. *)
Theorem display_data_projection df page :
  unique_labels df ->
  validate_columns df get_required_columns page = (Ret true, page) ->
  exists data,
    data = projection df get_required_columns /\
    columns data =
      [ "user/username"; "text"; "comment_like_count"; "user/is_verified";
        "created_at"; "user_profile_url" ] /\
    display_data dataframe_error df get_required_columns page =
      match dataframe_error data with
      | None =>
          (Ret tt,
           page ++ [st_header "Dados do Instagram" true;
                    st_dataframe data "dataframe-instagram" get_column_order
                      get_column_config true])
      | Some (type_name, message) =>
          (Raised (DataframeError type_name message),
           page ++ [st_header "Dados do Instagram" true])
      end /\
    shown_columns data get_column_order = projection df get_column_order /\
    columns (shown_columns data get_column_order) =
      [ "user_profile_url"; "user/username"; "user/is_verified";
        "comment_like_count"; "text"; "created_at" ] /\
    Forall (fun name => In name get_required_columns)
           (columns (shown_columns data get_column_order)) /\
    (forall df', Permutation df df' ->
       display_data dataframe_error df' get_required_columns page =
       display_data dataframe_error df get_required_columns page).
Proof.
  intros Hnd Hvalid.
  assert (Hall : forall name, In name get_required_columns -> In name (columns df)).
  { apply (validate_columns_true df get_required_columns page).
    now rewrite Hvalid. }
  assert (Hshown : shown_columns (flat_map (labelled df) get_required_columns)
                     get_column_order = flat_map (labelled df) get_column_order).
  { apply shown_selection; auto using required_columns_NoDup.
    intros k. apply column_order_required. }
  assert (Hcols : columns (flat_map (labelled df) get_column_order) = get_column_order).
  { apply columns_selection; [assumption|].
    intros k Hk. now apply Hall, column_order_required. }
  exists (flat_map (labelled df) get_required_columns).
  split; [|split; [|split; [|split; [|split; [|split]]]]].
  - now apply labelled_projection.
  - now apply columns_selection.
  - now apply display_data_present.
  - rewrite Hshown. now apply labelled_projection.
  - rewrite Hshown. exact Hcols.
  - rewrite Hshown, Hcols. apply Forall_forall. intros k.
    apply column_order_required.
  - intros df' Hp.
    assert (Hall' : forall name, In name get_required_columns -> In name (columns df')).
    { intros name Hin. unfold columns.
      eapply Permutation_in; [apply Permutation_map; eassumption|].
      now apply Hall. }
    rewrite !display_data_present by assumption.
    assert (Hsame : flat_map (labelled df') get_required_columns =
                    flat_map (labelled df) get_required_columns).
    { rewrite !flat_map_concat_map. f_equal. apply map_ext.
      intros name. now apply labelled_Permutation. }
    now rewrite Hsame.
Qed.

End Renderer.

Section Orchestrator.

Context {scalar : Type}.
Variable format : scalar -> string.
Variable dataframe_error : DataFrame scalar -> option (string * string).
Context {file : Type}.
Variable read_excel : file -> DataFrame scalar + string.
Implicit Types (df : DataFrame scalar) (page : list (event scalar)).

Lemma export_usernames_branch df page :
  In "user/username" (columns df) ->
  (exists payload,
     export_usernames format df page =
       (Ret tt, page ++ [st_download_button "Exportar user/username como texto"
                           payload "usernames.txt" "text/plain"])) \/
  (exists e, export_usernames format df page = (Raised e, page)).
Proof.
  intros Hin. unfold export_usernames.
  apply contains_In in Hin. rewrite Hin. unfold bind, getitem.
  destruct (labelled df "user/username") as [|c [|c' l]].
  - right. eexists. reflexivity.
  - left. eexists. reflexivity.
  - right. eexists. reflexivity.
Qed.

Lemma main_load_error f e :
  read_excel f = inr e ->
  main format dataframe_error read_excel (Some f) [] =
    (Stopped, opening ++ [st_error ("Erro ao carregar arquivo: " ++ e)%string]).
Proof.
  intros Hr. unfold main, bind, configure_page, emit, load_data. simpl.
  rewrite Hr. reflexivity.
Qed.

Lemma main_invalid f df page :
  read_excel f = inl df ->
  fst (validate_columns df get_required_columns page) = Ret false ->
  exists missing,
    main format dataframe_error read_excel (Some f) [] =
      (Stopped, opening ++ [st_error (missing_message ++ repr_list missing)%string]).
Proof.
  intros Hr Hv. unfold main, bind, configure_page, emit, load_data. simpl.
  rewrite Hr. unfold ret. unfold validate_columns in *.
  destruct (filter _ get_required_columns) as [|m ms]; [discriminate|].
  exists (m :: ms). reflexivity.
Qed.

Lemma main_valid f df :
  read_excel f = inl df ->
  (forall name, In name get_required_columns -> In name (columns df)) ->
  main format dataframe_error read_excel (Some f) [] =
    match dataframe_error (flat_map (labelled df) get_required_columns) with
    | None =>
        export_usernames format df
          (opening ++ [st_header "Dados do Instagram" true;
                       st_dataframe (flat_map (labelled df) get_required_columns)
                         "dataframe-instagram" get_column_order get_column_config true])
    | Some (type_name, message) =>
        (Raised (DataframeError type_name message),
         opening ++ [st_header "Dados do Instagram" true])
    end.
Proof.
  intros Hr Hall. unfold main, bind, configure_page, emit, load_data. simpl.
  rewrite Hr. unfold ret.
  rewrite (validate_columns_accepts_all df _ Hall). simpl.
  rewrite (display_data_present dataframe_error df get_required_columns _ Hall).
  destruct (dataframe_error _) as [[type_name message]|]; [reflexivity|]. simpl.
  destruct (export_usernames format df _) as [[| |] ?]; reflexivity.
Qed.

Lemma main_invalid_page f df :
  read_excel f = inl df ->
  fst (validate_columns df get_required_columns opening) = Ret false ->
  main format dataframe_error read_excel (Some f) [] =
    (Stopped, snd (validate_columns df get_required_columns opening)).
Proof.
  intros Hr Hv. unfold main, bind, configure_page, emit, load_data. simpl.
  rewrite Hr. unfold ret. fold (opening (scalar:=scalar)).
  destruct (validate_columns df get_required_columns opening) as [[[|]| |] page'];
    simpl in *; solve [discriminate | reflexivity].
Qed.

End Orchestrator.

Section Flow.

Context {scalar : Type}.
Variable format : scalar -> string.
Variable dataframe_error : DataFrame scalar -> option (string * string).
Context {file : Type}.
Variable read_excel : file -> DataFrame scalar + string.
Implicit Types (df : DataFrame scalar) (page : list (event scalar)).

(** What a run of [main] leaves on the page, case by case. *)
Lemma main_pages uploaded_file :
  (halts_early read_excel uploaded_file /\
   exists failure,
     main format dataframe_error read_excel uploaded_file [] =
       (Stopped, opening ++ failure) /\
     Forall (fun e => is_render e = false /\ is_export e = false) failure) \/
  (exists f df outcome,
     uploaded_file = Some f /\ read_excel f = inl df /\
     (forall name, In name get_required_columns -> In name (columns df)) /\
     (main format dataframe_error read_excel uploaded_file [] =
        (outcome, opening ++ [st_header "Dados do Instagram" true]) \/
      exists offered,
        main format dataframe_error read_excel uploaded_file [] =
          (outcome,
           opening ++ [st_header "Dados do Instagram" true;
                       st_dataframe (flat_map (labelled df) get_required_columns)
                         "dataframe-instagram" get_column_order get_column_config true]
                   ++ offered) /\
        (offered = [] \/
         exists payload,
           offered = [st_download_button "Exportar user/username como texto"
                        payload "usernames.txt" "text/plain"]))).
Proof.
  destruct uploaded_file as [f|].
  2:{ left. split; [constructor|]. exists []. split; [reflexivity | constructor]. }
  destruct (read_excel f) as [df|e] eqn:Hr.
  2:{ left. split; [econstructor; eassumption|]. eexists. split.
      - apply main_load_error. eassumption.
      - repeat constructor. }
  destruct (validate_columns df get_required_columns []) as [[[|]| |] page'] eqn:Hv.
  - right.
    assert (Hall : forall name, In name get_required_columns -> In name (columns df)).
    { apply (validate_columns_true df get_required_columns []). now rewrite Hv. }
    rewrite (main_valid format dataframe_error read_excel f df Hr Hall).
    assert (Hid : In "user/username" (columns df)) by (apply Hall; now left).
    destruct (dataframe_error _) as [[type_name message]|].
    { exists f, df, (Raised (DataframeError type_name message)).
      split; [reflexivity|]. split; [exact Hr|]. split; [exact Hall|]. now left. }
    destruct (export_usernames_branch format df
                (opening ++ [st_header "Dados do Instagram" true;
                   st_dataframe (flat_map (labelled df) get_required_columns)
                     "dataframe-instagram" get_column_order get_column_config true])
                Hid) as [[payload Hp]|[e He]].
    + exists f, df, (Ret tt).
      split; [reflexivity|]. split; [exact Hr|]. split; [exact Hall|]. right.
      exists [st_download_button "Exportar user/username como texto"
                payload "usernames.txt" "text/plain"]. split.
      * rewrite Hp. now rewrite <- app_assoc.
      * right. now exists payload.
    + exists f, df, (Raised e).
      split; [reflexivity|]. split; [exact Hr|]. split; [exact Hall|]. right.
      exists []. split.
      * rewrite He. now rewrite app_nil_r.
      * now left.
  - left.
    assert (Hh : fst (validate_columns df get_required_columns []) = Ret false)
      by now rewrite Hv.
    split; [econstructor; eassumption|].
    destruct (main_invalid format dataframe_error read_excel f df [] Hr Hh)
      as [missing Hm].
    eexists. split; [exact Hm|]. repeat constructor.
  - exfalso. unfold validate_columns in Hv.
    destruct (filter _ get_required_columns); discriminate.
  - exfalso. unfold validate_columns in Hv.
    destruct (filter _ get_required_columns); discriminate.
Qed.

Lemma export_after_table (l1 l2 : list (event scalar)) t :
  Forall (fun e => is_export e = false) l1 ->
  is_table t = true -> is_export t = false ->
  forall before e after,
    before ++ e :: after = l1 ++ t :: l2 ->
    is_export e = true ->
    existsb is_table before = true.
Proof.
  intros Hl1 Ht Hte.
  induction Hl1 as [|x l1 Hx Hl1 IH]; intros [|b before] e after Heq He;
    simpl in Heq; injection Heq as Hhd Htl; subst.
  - congruence.
  - simpl. now rewrite Ht.
  - congruence.
  - simpl. rewrite (IH _ _ _ Htl He). apply orb_true_r.
Qed.

Lemma not_found_is_export : is_export (st_error (scalar:=scalar) not_found_message) = true.
Proof. reflexivity. Qed.

Lemma halted_not_valid uploaded_file f df :
  halts_early read_excel uploaded_file ->
  uploaded_file = Some f -> read_excel f = inl df ->
  ~ (forall name, In name get_required_columns -> In name (columns df)).
Proof.
  intros Hh Hu Hr Hall. destruct Hh as [|f' e He|f' df' page He Hv].
  - discriminate.
  - injection Hu as ->. congruence.
  - injection Hu as ->. rewrite Hr in He. injection He as <-.
    apply (validate_columns_true df get_required_columns page) in Hall.
    congruence.
Qed.

(** C7: once the validator has answered [True] for the six required
    names, the identifier column is among the table's columns, so the
    exporter does not take its error branch; and no run of [main] puts
    the column-not-found error on the page. *)
Theorem export_error_unreachable df page :
  fst (validate_columns df get_required_columns page) = Ret true ->
  In "user/username" (columns df) /\
  (forall page',
     export_usernames format df page' <>
       (Ret tt, page' ++ [st_error not_found_message])) /\
  (forall uploaded_file,
     ~ In (st_error not_found_message)
          (snd (main format dataframe_error read_excel uploaded_file []))).
Proof.
  intros Hv.
  assert (Hid : In "user/username" (columns df)).
  { apply (validate_columns_true df get_required_columns page); [assumption | now left]. }
  split; [exact Hid|]. split.
  - intros page' Heq.
    destruct (export_usernames_branch format df page' Hid) as [[payload Hp]|[e He]];
      rewrite Heq in *; [|discriminate].
    injection Hp as Hp. apply app_inv_head in Hp. discriminate.
  - intros uploaded_file Hin.
    destruct (main_pages uploaded_file)
      as [[_ [failure [Hm Hf]]]
         |[f [df' [out [_ [_ [_ [Hm|[offered [Hm Ho]]]]]]]]]];
      rewrite Hm in Hin; simpl in Hin.
    + destruct Hin as [Hin|[Hin|Hin]]; try discriminate.
      rewrite Forall_forall in Hf. apply Hf in Hin.
      rewrite not_found_is_export in Hin. now destruct Hin.
    + destruct Hin as [Hin|[Hin|[Hin|[]]]]; discriminate.
    + destruct Hin as [Hin|[Hin|[Hin|[Hin|Hin]]]]; try discriminate.
      destruct Ho as [->|[payload ->]]; simpl in Hin; [contradiction|].
      destruct Hin as [Hin|[]]. discriminate.
Qed.

(** C8: a run with no file, with no table from the loader or with a
    table the validator rejects stops there, and nothing of the
    renderer, neither its header nor its table, and nothing of the
    exporter is on the page: with no file the page is the opening
    alone, after a load failure it is the opening and the load error,
    after a failed validation it is the page as the validator left it.
    And in every run, whatever the exporter puts on the page comes
    after the table. *)
Theorem main_short_circuits uploaded_file :
  (halts_early read_excel uploaded_file ->
   fst (main format dataframe_error read_excel uploaded_file []) = Stopped /\
   Forall (fun e => is_render e = false /\ is_table e = false /\ is_export e = false)
          (snd (main format dataframe_error read_excel uploaded_file []))) /\
  (uploaded_file = None ->
   main format dataframe_error read_excel uploaded_file [] = (Stopped, opening)) /\
  (forall f e,
     uploaded_file = Some f -> read_excel f = inr e ->
     main format dataframe_error read_excel uploaded_file [] =
       (Stopped, opening ++ [st_error ("Erro ao carregar arquivo: " ++ e)%string])) /\
  (forall f df,
     uploaded_file = Some f -> read_excel f = inl df ->
     fst (validate_columns df get_required_columns opening) = Ret false ->
     main format dataframe_error read_excel uploaded_file [] =
       (Stopped, snd (validate_columns df get_required_columns opening))) /\
  (forall before e after,
     snd (main format dataframe_error read_excel uploaded_file []) = before ++ e :: after ->
     is_export e = true ->
     existsb is_table before = true).
Proof.
  assert (Hnone : uploaded_file = None ->
                  main format dataframe_error read_excel uploaded_file [] =
                    (Stopped, opening))
    by (intros ->; reflexivity).
  assert (Hload : forall f e,
             uploaded_file = Some f -> read_excel f = inr e ->
             main format dataframe_error read_excel uploaded_file [] =
               (Stopped, opening ++ [st_error ("Erro ao carregar arquivo: " ++ e)%string]))
    by (intros f e -> Hr; now apply main_load_error).
  assert (Hbad : forall f df,
             uploaded_file = Some f -> read_excel f = inl df ->
             fst (validate_columns df get_required_columns opening) = Ret false ->
             main format dataframe_error read_excel uploaded_file [] =
               (Stopped, snd (validate_columns df get_required_columns opening)))
    by (intros f df -> Hr Hv; now apply main_invalid_page).
  cut ((halts_early read_excel uploaded_file ->
        fst (main format dataframe_error read_excel uploaded_file []) = Stopped /\
        Forall (fun e => is_render e = false /\ is_table e = false /\ is_export e = false)
               (snd (main format dataframe_error read_excel uploaded_file []))) /\
       (forall before e after,
          snd (main format dataframe_error read_excel uploaded_file []) =
            before ++ e :: after ->
          is_export e = true ->
          existsb is_table before = true)).
  { intros [Hstop Horder]. auto. }
  clear Hnone Hload Hbad.
  destruct (main_pages uploaded_file)
    as [[Hh [failure [Hm Hf]]]
       |[f [df [out [Hu [Hr [Hall [Hm|[offered [Hm Ho]]]]]]]]]];
    rewrite Hm; simpl.
  - split.
    + intros _. split; [reflexivity|]. repeat (constructor; [now repeat split|]).
      eapply Forall_impl; [|exact Hf]. intros e [Hrender Hexport].
      split; [exact Hrender|]. split; [|exact Hexport].
      now destruct e.
    + intros before e after Heq He. exfalso.
      assert (Hin : In e (before ++ e :: after)) by apply in_elt.
      rewrite <- Heq in Hin. simpl in Hin. destruct Hin as [<-|[<-|Hin]]; try discriminate.
      rewrite Forall_forall in Hf. apply Hf in Hin. destruct Hin. congruence.
  - split.
    + intros Hh. exfalso.
      exact (halted_not_valid uploaded_file f df Hh Hu Hr Hall).
    + intros before e after Heq He. exfalso.
      assert (Hin : In e (before ++ e :: after)) by apply in_elt.
      rewrite <- Heq in Hin. simpl in Hin.
      destruct Hin as [<-|[<-|[<-|[]]]]; discriminate.
  - split.
    + intros Hh. exfalso.
      exact (halted_not_valid uploaded_file f df Hh Hu Hr Hall).
    + intros before e after Heq He.
      eapply (export_after_table
                (opening ++ [st_header "Dados do Instagram" true])
                offered
                (st_dataframe (flat_map (labelled df) get_required_columns)
                   "dataframe-instagram" get_column_order get_column_config true)).
      * repeat constructor.
      * reflexivity.
      * reflexivity.
      * simpl. symmetry. exact Heq.
      * exact He.
Qed.

End Flow.

(** ** The properties on the sample tables *)

Section Witnesses.

Import Samples.

Lemma display_data_projection_witness :
  unique_labels comments /\
  validate_columns comments get_required_columns [] = (Ret true, []) /\
  exists data,
    display_data sample_dataframe_error comments get_required_columns [] =
      (Ret tt,
       [st_header "Dados do Instagram" true;
        st_dataframe data "dataframe-instagram" get_column_order get_column_config true]) /\
    columns data = get_required_columns /\
    columns (shown_columns data get_column_order) =
      [ "user_profile_url"; "user/username"; "user/is_verified";
        "comment_like_count"; "text"; "created_at" ] /\
    display_data sample_dataframe_error comments_reordered get_required_columns [] =
    display_data sample_dataframe_error comments get_required_columns [].
Proof.
  assert (Hu : unique_labels comments) by (apply distinct_NoDup; reflexivity).
  split; [exact Hu|]. split; [reflexivity|].
  destruct (display_data_projection sample_dataframe_error comments [] Hu eq_refl)
    as [data [Hdata [Hsix [Hd [_ [Hc [_ Hp]]]]]]].
  exists data. split; [|split; [exact Hsix|split; [exact Hc|]]].
  - rewrite Hd. rewrite Hdata. reflexivity.
  - apply Hp. apply Permutation_rev.
Defined.

Lemma validate_columns_reports_missing_witness :
  validate_columns partial get_required_columns [] =
    (Ret false,
     [st_error "As seguintes colunas estão faltando no arquivo: ['comment_like_count', 'user/is_verified', 'created_at', 'user_profile_url']"]).
Proof.
  apply (validate_columns_reports_missing partial partial_missing []).
  - discriminate.
  - reflexivity.
  - apply lacks_exactly_spec. reflexivity.
Defined.

Lemma validate_columns_accepts_witness :
  validate_columns comments get_required_columns [] = (Ret true, []) /\
  validate_columns comments_reordered get_required_columns [] = (Ret true, []).
Proof.
  split.
  - apply (validate_columns_accepts comments []).
    apply carries_all_spec. reflexivity.
  - apply (validate_columns_accepts comments_reordered []).
    apply carries_all_spec. reflexivity.
Defined.


Lemma export_usernames_excludes_missing_witness :
  loaded [text "alice"; None; text "bob"] /\
  exists urls,
    export_usernames str comments [] =
      (Ret tt,
       [st_download_button "Exportar user/username como texto"
          (String.concat LF urls) "usernames.txt" "text/plain"]) /\
    List.length urls = 2 /\
    ~ In base_url urls.
Proof.
  assert (Hl : loaded (scalar:=py) [text "alice"; None; text "bob"]).
  { intros [H|[H|[H|[]]]]; discriminate H. }
  split; [exact Hl|].
  destruct (export_usernames_excludes_missing str comments
              [text "alice"; None; text "bob"] [])
    as [urls [He [Hu [_ [Hn _]]]]].
  - apply distinct_NoDup. reflexivity.
  - simpl. auto.
  - exact Hl.
  - exists urls. split; [exact He|]. split; [exact Hn|].
    rewrite Hu. simpl. intros [H|[H|[]]]; discriminate H.
Defined.

Lemma export_usernames_absent_witness :
  validate_columns anonymous ["text"] [] = (Ret true, []) /\
  export_usernames str anonymous [] =
    (Ret tt, [st_error "A coluna 'user/username' não foi encontrada no arquivo XLSX."]).
Proof.
  split; [reflexivity|].
  apply (export_usernames_absent str anonymous []).
  apply contains_false. reflexivity.
Defined.

Lemma export_error_unreachable_witness :
  fst (validate_columns comments get_required_columns []) = Ret true /\
  In "user/username" (columns comments) /\
  ~ In (st_error not_found_message)
       (snd (main str sample_dataframe_error read_sample (Some "comments.xlsx") [])).
Proof.
  split; [reflexivity|].
  destruct (export_error_unreachable str sample_dataframe_error read_sample
              comments [] eq_refl)
    as [Hid [_ Hmain]].
  split; [exact Hid | apply Hmain].
Defined.

Lemma main_short_circuits_witness :
  halts_early read_sample (Some "partial.xlsx") /\
  main str sample_dataframe_error read_sample (Some "partial.xlsx") [] =
    (Stopped,
     opening ++
     [st_error "As seguintes colunas estão faltando no arquivo: ['comment_like_count', 'user/is_verified', 'created_at', 'user_profile_url']"]) /\
  Forall (fun e => is_render e = false /\ is_table e = false /\ is_export e = false)
         (snd (main str sample_dataframe_error read_sample (Some "partial.xlsx") [])).
Proof.
  assert (Hh : halts_early read_sample (Some "partial.xlsx")).
  { apply (invalid_table read_sample "partial.xlsx" partial []); reflexivity. }
  split; [exact Hh|].
  destruct (main_short_circuits str sample_dataframe_error read_sample
              (Some "partial.xlsx")) as [Hstop [_ [_ [Hbad _]]]].
  split.
  - exact (Hbad "partial.xlsx" partial eq_refl eq_refl eq_refl).
  - exact (proj2 (Hstop Hh)).
Defined.

Lemma export_usernames_no_values_witness :
  export_usernames str blank [] =
    (Ret tt,
     [st_download_button "Exportar user/username como texto" ""
        "usernames.txt" "text/plain"]).
Proof.
  apply (export_usernames_no_values str blank [None; None] []).
  - apply distinct_NoDup. reflexivity.
  - now left.
  - intros c [<-|[<-|[]]]; reflexivity.
Defined.

End Witnesses.

(** ** Further properties of the script *)

Section Texts.

Local Arguments Ascii.eqb : simpl never.

Lemma append_assoc (a b c : string) : ((a ++ b) ++ c = a ++ b ++ c)%string.
Proof. induction a as [|x a IH]; simpl; [reflexivity | now rewrite IH]. Qed.

Lemma has_char_append c (a b : string) :
  has_char c (a ++ b)%string = has_char c a || has_char c b.
Proof.
  induction a as [|x a IH]; simpl; [reflexivity|].
  now rewrite IH, orb_assoc.
Qed.

Lemma concat_cons sep (x : string) (l : list string) :
  l <> [] -> String.concat sep (x :: l) = (x ++ sep ++ String.concat sep l)%string.
Proof. destruct l; [contradiction | reflexivity]. Qed.

Lemma concat_app sep (l1 l2 : list string) :
  l1 <> [] -> l2 <> [] ->
  String.concat sep (l1 ++ l2) =
    (String.concat sep l1 ++ sep ++ String.concat sep l2)%string.
Proof.
  intros H1 H2. induction l1 as [|x l1 IH]; [contradiction|].
  destruct l1 as [|y l1].
  - simpl app. now apply concat_cons.
  - change ((x :: y :: l1) ++ l2) with (x :: ((y :: l1) ++ l2)).
    rewrite concat_cons by discriminate.
    rewrite IH by discriminate.
    rewrite (concat_cons sep x (y :: l1)) by discriminate.
    now rewrite !append_assoc.
Qed.

Lemma split_lines_one_line (s : string) : one_line s = true -> split_lines s = [s].
Proof.
  unfold one_line. induction s as [|c s IH]; simpl; [reflexivity|].
  rewrite negb_orb, andb_true_iff. intros [Hc Hs].
  rewrite Ascii.eqb_sym. apply negb_true_iff in Hc. rewrite Hc.
  now rewrite (IH Hs).
Qed.

Lemma split_lines_append (s t : string) :
  one_line s = true ->
  split_lines (s ++ LF ++ t)%string = s :: split_lines t.
Proof.
  unfold one_line. induction s as [|c s IH]; simpl in *; [reflexivity|].
  rewrite negb_orb, andb_true_iff. intros [Hc Hs].
  rewrite Ascii.eqb_sym. apply negb_true_iff in Hc. rewrite Hc.
  now rewrite (IH Hs).
Qed.

Lemma split_lines_concat (lines : list string) :
  lines <> [] ->
  Forall (fun line => one_line line = true) lines ->
  split_lines (String.concat LF lines) = lines.
Proof.
  intros Hne Hall. induction Hall as [|x l Hx Hl IH]; [contradiction|].
  destruct l as [|y l].
  - now apply split_lines_one_line.
  - rewrite concat_cons by discriminate.
    rewrite split_lines_append by assumption.
    now rewrite IH by discriminate.
Qed.

End Texts.

Section Loading.

Context {scalar : Type} {file : Type}.
Variable read_excel : file -> DataFrame scalar + string.
Implicit Types (df : DataFrame scalar) (page : list (event scalar)).

Lemma page_grows page (e : event scalar) : page ++ [e] <> page.
Proof.
  intros H. apply (f_equal (@List.length _)) in H.
  rewrite length_app in H. simpl in H. rewrite Nat.add_1_r in H.
  now apply Nat.neq_succ_diag_l in H.
Qed.

(** X1: [load_data] never lets the parser's exception out: it always
    returns.  It returns the parsed table when there is one and leaves
    the page alone; it returns [None] exactly when it has put an error
    on the page, and that error carries the text of the exception. *)
Theorem load_data_reports (f : file) page :
  exists r page',
    load_data read_excel f page = (Ret r, page') /\
    (r = None <-> page' <> page) /\
    (forall df, r = Some df <-> read_excel f = inl df) /\
    (r = None ->
     exists e, read_excel f = inr e /\
               page' = page ++ [st_error ("Erro ao carregar arquivo: " ++ e)%string]).
Proof.
  unfold load_data. destruct (read_excel f) as [df|e].
  - exists (Some df), page. split; [reflexivity|]. split; [|split].
    + split; [discriminate | intros H; now contradiction H].
    + intros df'. split; congruence.
    + discriminate.
  - exists None, (page ++ [st_error ("Erro ao carregar arquivo: " ++ e)%string]).
    split; [reflexivity|]. split; [|split].
    + split; [intros _; apply page_grows | reflexivity].
    + intros df'. split; discriminate.
    + intros _. now exists e.
Qed.

End Loading.

Section Validating.

Context {scalar : Type}.
Implicit Types (df : DataFrame scalar) (page : list (event scalar)).

Lemma absent_In df (names : list string) name :
  In name (filter (fun col => negb (contains col (columns df))) names) <->
  In name names /\ ~ In name (columns df).
Proof.
  rewrite filter_In, negb_true_iff, contains_false. reflexivity.
Qed.

Lemma absent_order df (names : list string) :
  let missing := filter (fun col => negb (contains col (columns df))) names in
  filter (fun name => contains name missing) names = missing.
Proof.
  intros missing. apply filter_ext_in. intros name Hin.
  destruct (contains name (columns df)) eqn:Hc; simpl.
  - apply contains_false. intros Hm. apply absent_In in Hm.
    apply contains_In in Hc. now destruct Hm.
  - apply contains_In, absent_In. split; [assumption | now apply contains_false].
Qed.

(** X2: for any list of required names in ASCII, [validate_columns]
    returns a boolean and never stops the run.  It answers [True]
    exactly when every name is a label of the table, and then leaves
    the page alone; otherwise it adds one error that lists the names
    the table lacks, each as often and in the order the required list
    has it. *)
Theorem validate_columns_any_list df (required_columns : list string) page :
  Forall (fun name => ascii_text name = true) required_columns ->
  exists (ok : bool) (missing : list string),
    validate_columns df required_columns page =
      (Ret ok,
       if ok then page
       else page ++ [st_error (missing_message ++ repr_list missing)%string]) /\
    (ok = true <-> forall name, In name required_columns -> In name (columns df)) /\
    (forall name,
       In name missing <-> In name required_columns /\ ~ In name (columns df)) /\
    filter (fun name => contains name missing) required_columns = missing.
Proof.
  intros _.
  pose proof (validate_columns_true df required_columns page) as Htrue.
  pose proof (absent_order df required_columns) as Horder.
  pose proof (absent_In df required_columns) as Hin.
  unfold validate_columns in *.
  destruct (filter _ required_columns) as [|m ms] eqn:Hf.
  - exists true, (@nil string). split; [reflexivity|]. split; [|split].
    + split; [intros _; now apply Htrue | reflexivity].
    + exact Hin.
    + exact Horder.
  - exists false, (m :: ms). split; [reflexivity|]. split; [|split].
    + split; [discriminate|]. intros Hall. apply Htrue in Hall. discriminate.
    + exact Hin.
    + exact Horder.
Qed.

(** X3: the validator looks at the labels only.  Two tables with the
    same set of labels get the same answer and the same message,
    whatever their cells, the order of their columns or the number of
    columns under one label. *)
Theorem validate_columns_labels_only df1 df2 (required_columns : list string) page :
  (forall name, In name (columns df1) <-> In name (columns df2)) ->
  validate_columns df1 required_columns page =
  validate_columns df2 required_columns page.
Proof.
  intros Hsame. unfold validate_columns.
  assert (Hf : filter (fun col => negb (contains col (columns df1))) required_columns =
               filter (fun col => negb (contains col (columns df2))) required_columns).
  { apply filter_ext. intros name. f_equal.
    destruct (contains name (columns df2)) eqn:Hc.
    - apply contains_In, Hsame. now apply contains_In.
    - apply contains_false. intros Hin. apply Hsame, contains_In in Hin. congruence. }
  now rewrite Hf.
Qed.

End Validating.

Section Rendering.

Context {scalar : Type}.
Variable dataframe_error : DataFrame scalar -> option (string * string).
Implicit Types (df : DataFrame scalar) (page : list (event scalar)).

Lemma unique_NoDup (labels : list string) : NoDup labels -> unique labels = labels.
Proof.
  induction 1 as [|name labels Hout Hnd IH]; [reflexivity|].
  simpl. rewrite IH. f_equal. apply filter_all.
  intros other Hin. apply negb_true_iff, String.eqb_neq. intros ->. contradiction.
Qed.

Lemma display_data_absent df (names : list string) page m ms :
  filter (fun k => negb (contains k (columns df))) names = m :: ms ->
  display_data dataframe_error df names page =
    (Raised (KeyError (if (List.length (m :: ms) =? List.length names)%nat
                       then names else unique (m :: ms))),
     page ++ [st_header "Dados do Instagram" true]).
Proof.
  intros Hf. unfold display_data, bind, emit, getitem_list. rewrite Hf.
  destruct (List.length (m :: ms) =? List.length names)%nat; reflexivity.
Qed.

Lemma filter_whole {A : Type} (keep : A -> bool) (l : list A) :
  List.length (filter keep l) = List.length l -> filter keep l = l.
Proof.
  induction l as [|x l IH]; [reflexivity|]. simpl.
  destruct (keep x); simpl; intros Hlen.
  - f_equal. apply IH. now injection Hlen.
  - exfalso. pose proof (filter_length_le keep l) as Hle.
    rewrite Hlen in Hle. exact (Nat.nle_succ_diag_l _ Hle).
Qed.

(** X4: shown a table that lacks one of the required names (ASCII names,
    without repetition), [display_data] puts the header on the page
    and then fails with a [KeyError], with no table shown; the labels
    of the [KeyError] are the names that [validate_columns] reports for
    the same table and list. *)
Theorem display_data_missing_column df (required_columns : list string) page :
  NoDup required_columns ->
  Forall (fun name => ascii_text name = true) required_columns ->
  (exists name, In name required_columns /\ ~ In name (columns df)) ->
  exists missing,
    display_data dataframe_error df required_columns page =
      (Raised (KeyError missing), page ++ [st_header "Dados do Instagram" true]) /\
    validate_columns df required_columns page =
      (Ret false, page ++ [st_error (missing_message ++ repr_list missing)%string]) /\
    (forall name,
       In name missing <-> In name required_columns /\ ~ In name (columns df)).
Proof.
  intros Hnd _ [name [Hreq Hout]].
  pose proof (absent_In df required_columns) as Hin.
  pose proof (display_data_absent df required_columns page) as Hd.
  unfold validate_columns, bind, emit.
  destruct (filter _ required_columns) as [|m ms] eqn:Hf.
  - exfalso. apply (Hin name). now split.
  - exists (m :: ms). rewrite (Hd m ms eq_refl).
    split; [|split; [reflexivity | exact Hin]].
    destruct (List.length (m :: ms) =? List.length required_columns)%nat eqn:Hlen.
    + apply Nat.eqb_eq in Hlen. rewrite <- Hf in Hlen.
      apply filter_whole in Hlen. rewrite Hf in Hlen. now rewrite Hlen.
    + rewrite unique_NoDup; [reflexivity|].
      rewrite <- Hf. now apply NoDup_filter.
Qed.

(** X5: the validator guards the lookup in the renderer exactly.
    [display_data] fails with a [KeyError] if and only if
    [validate_columns] answers [False] on the same table and list; and
    it returns normally if and only if the validator answers [True] and
    [st.dataframe] takes the selected columns. *)
Theorem validate_guards_display df (required_columns : list string) page page' :
  (fst (validate_columns df required_columns page) = Ret false <->
   exists labels,
     fst (display_data dataframe_error df required_columns page') =
       Raised (KeyError labels)) /\
  (fst (display_data dataframe_error df required_columns page') = Ret tt <->
   fst (validate_columns df required_columns page) = Ret true /\
   dataframe_error (flat_map (labelled df) required_columns) = None).
Proof.
  pose proof (display_data_absent df required_columns page') as Hd.
  pose proof (validate_columns_true df required_columns page) as Htrue.
  pose proof (display_data_present dataframe_error df required_columns page') as Hp.
  unfold validate_columns in *.
  destruct (filter _ required_columns) as [|m ms] eqn:Hf.
  - rewrite Hp by (now apply Htrue).
    destruct (dataframe_error _) as [[type_name message]|]; simpl; split; split;
      try discriminate; try (intros [labels H]; discriminate H);
      try (intros [_ H]; discriminate H); auto.
  - rewrite (Hd m ms eq_refl). simpl. split; split;
      try discriminate; try (intros [H _]; discriminate H); eauto.
Qed.

End Rendering.

Section Exporting.

Context {scalar : Type}.
Variable format : scalar -> string.
Implicit Types (df : DataFrame scalar) (page : list (event scalar))
         (s : Series scalar).

Lemma dropna_app s1 s2 : dropna (s1 ++ s2) = dropna s1 ++ dropna s2.
Proof.
  induction s1 as [|[v|] s1 IH]; simpl; [reflexivity | now rewrite IH | exact IH].
Qed.

Lemma dropna_nil s : dropna s = [] <-> (forall c, In c s -> c = None).
Proof.
  split.
  - intros Hd [v|] Hin; [|reflexivity].
    apply dropna_In in Hin. rewrite Hd in Hin. contradiction.
  - intros Hnone. destruct (dropna s) as [|v l] eqn:Hd; [reflexivity|].
    assert (Hin : In v (dropna s)) by (rewrite Hd; now left).
    apply dropna_In, Hnone in Hin. discriminate.
Qed.

Lemma urls_payload_empty (values : list (value scalar)) :
  String.concat LF (map (fun v => (base_url ++ fstring format v)%string) values) = "" <->
  values = [].
Proof.
  split; [|intros ->; reflexivity].
  destruct values as [|v [|w l]]; [reflexivity | discriminate | discriminate].
Qed.

Lemma urls_payload_app (a b : list (value scalar)) :
  String.concat LF (map (fun v => (base_url ++ fstring format v)%string) (a ++ b)) =
    (if String.eqb
          (String.concat LF (map (fun v => (base_url ++ fstring format v)%string) a)) ""
     then String.concat LF (map (fun v => (base_url ++ fstring format v)%string) b)
     else if String.eqb
               (String.concat LF (map (fun v => (base_url ++ fstring format v)%string) b)) ""
     then String.concat LF (map (fun v => (base_url ++ fstring format v)%string) a)
     else String.concat LF (map (fun v => (base_url ++ fstring format v)%string) a)
            ++ LF
            ++ String.concat LF (map (fun v => (base_url ++ fstring format v)%string) b))%string.
Proof.
  destruct (String.eqb_spec
              (String.concat LF (map (fun v => (base_url ++ fstring format v)%string) a)) "")
    as [Ha|Ha].
  - apply urls_payload_empty in Ha. now subst.
  - destruct (String.eqb_spec
                (String.concat LF (map (fun v => (base_url ++ fstring format v)%string) b)) "")
      as [Hb|Hb].
    + apply urls_payload_empty in Hb. subst. now rewrite app_nil_r.
    + rewrite map_app. apply concat_app; intros H; apply map_eq_nil in H;
        [apply Ha | apply Hb]; now apply urls_payload_empty.
Qed.

Lemma url_one_line (v : value scalar) :
  one_line (base_url ++ fstring format v)%string = one_line (fstring format v).
Proof. unfold one_line. now rewrite has_char_append. Qed.

(** X6: when two or more columns carry the identifier label, the
    exporter fails with an [AttributeError], since the selection is then
    a table and not a column; it puts nothing on the page, neither a
    download nor its own error. *)
Theorem export_usernames_doubled df page :
  2 <= List.length (labelled df "user/username") ->
  export_usernames format df page =
    (Raised (AttributeError "'DataFrame' object has no attribute 'tolist'"), page).
Proof.
  intros Hlen. unfold export_usernames.
  destruct (labelled df "user/username") as [|c [|c' l]] eqn:Hl; simpl in Hlen.
  - inversion Hlen.
  - inversion Hlen as [|? H]. inversion H.
  - assert (Hc : contains "user/username" (columns df) = true).
    { apply contains_In. destruct c as [k t].
      assert (Hin : In (k, t) (labelled df "user/username")) by (rewrite Hl; now left).
      apply filter_In in Hin. destruct Hin as [Hin Hk]. simpl in Hk.
      apply String.eqb_eq in Hk. subst k.
      change "user/username" with (fst ("user/username", t)). now apply in_map. }
    rewrite Hc. unfold bind, getitem. now rewrite Hl.
Qed.

(** X7: with the identifier column present, the downloaded payload is
    empty exactly when every cell of that column is missing: a single
    value, even an empty one, already gives a non-empty payload. *)
Theorem export_usernames_empty_payload df s page :
  unique_labels df ->
  In ("user/username", s) df ->
  exists payload,
    export_usernames format df page =
      (Ret tt,
       page ++ [st_download_button "Exportar user/username como texto" payload
                  "usernames.txt" "text/plain"]) /\
    (payload = "" <-> forall c, In c s -> c = None).
Proof.
  intros Hnd Hin. eexists. split.
  - exact (export_usernames_present format df s page Hnd Hin).
  - now rewrite urls_payload_empty, dropna_nil.
Qed.

(** X8: exporting rows put one after the other gives the two exports
    one after the other: the payload for the identifier cells [s1 ++ s2]
    is the payload for [s1], a line feed and the payload for [s2], and
    just the other payload when one of the two is empty. *)
Theorem export_usernames_appended df1 df2 df s1 s2 p1 p2 page :
  unique_labels df1 -> unique_labels df2 -> unique_labels df ->
  In ("user/username", s1) df1 ->
  In ("user/username", s2) df2 ->
  In ("user/username", s1 ++ s2) df ->
  export_usernames format df1 page =
    (Ret tt, page ++ [st_download_button "Exportar user/username como texto" p1
                        "usernames.txt" "text/plain"]) ->
  export_usernames format df2 page =
    (Ret tt, page ++ [st_download_button "Exportar user/username como texto" p2
                        "usernames.txt" "text/plain"]) ->
  export_usernames format df page =
    (Ret tt,
     page ++ [st_download_button "Exportar user/username como texto"
                (if String.eqb p1 "" then p2
                 else if String.eqb p2 "" then p1
                 else p1 ++ LF ++ p2)%string
                "usernames.txt" "text/plain"]).
Proof.
  intros Hnd1 Hnd2 Hnd Hin1 Hin2 Hin He1 He2.
  rewrite (export_usernames_present format df1 s1 page Hnd1 Hin1) in He1.
  rewrite (export_usernames_present format df2 s2 page Hnd2 Hin2) in He2.
  rewrite (export_usernames_present format df (s1 ++ s2) page Hnd Hin).
  injection He1 as He1. apply app_inv_head in He1. injection He1 as <-.
  injection He2 as He2. apply app_inv_head in He2. injection He2 as <-.
  now rewrite dropna_app, urls_payload_app.
Qed.

(** X9: when no value of the identifier column holds a line feed and
    there is at least one value, splitting the downloaded payload at
    the line feeds gives back the URLs, one line per non-missing cell
    in row order. *)
Theorem export_usernames_lines df s page :
  unique_labels df ->
  In ("user/username", s) df ->
  (exists v, In (Some v) s) ->
  (forall v, In (Some v) s -> one_line (fstring format v) = true) ->
  exists payload,
    export_usernames format df page =
      (Ret tt,
       page ++ [st_download_button "Exportar user/username como texto" payload
                  "usernames.txt" "text/plain"]) /\
    split_lines payload =
      map (fun v => ("https://www.instagram.com/" ++ fstring format v)%string) (dropna s) /\
    List.length (split_lines payload) =
      List.length (filter (fun c => match c with Some _ => true | None => false end) s).
Proof.
  intros Hnd Hin [v Hv] Hone. eexists. split.
  - exact (export_usernames_present format df s page Hnd Hin).
  - assert (Hsplit : split_lines
                       (String.concat LF
                          (map (fun v => (base_url ++ fstring format v)%string) (dropna s))) =
                     map (fun v => (base_url ++ fstring format v)%string) (dropna s)).
    { apply split_lines_concat.
      - apply dropna_In in Hv. destruct (dropna s); [contradiction | discriminate].
      - apply Forall_forall. intros line Hl. apply in_map_iff in Hl.
        destruct Hl as [w [<- Hw]]. rewrite url_one_line.
        now apply Hone, dropna_In. }
    split; [exact Hsplit|]. rewrite Hsplit, length_map. clear.
    induction s as [|[w|] s IH]; simpl; congruence.
Qed.

End Exporting.

Section Running.

Context {scalar : Type}.
Variable format : scalar -> string.
Variable dataframe_error : DataFrame scalar -> option (string * string).
Context {file : Type}.
Variable read_excel : file -> DataFrame scalar + string.
Implicit Types (df : DataFrame scalar) (page : list (event scalar)).

(** The ways a run of [main] can end. *)
Lemma main_runs uploaded_file :
  (uploaded_file = None /\
   main format dataframe_error read_excel uploaded_file [] = (Stopped, opening)) \/
  (exists f body,
     uploaded_file = Some f /\
     (forall df, read_excel f = inl df ->
                 ~ (forall name, In name get_required_columns -> In name (columns df))) /\
     main format dataframe_error read_excel uploaded_file [] =
       (Stopped, opening ++ [st_error body])) \/
  (exists f df type_name message,
     uploaded_file = Some f /\ read_excel f = inl df /\
     (forall name, In name get_required_columns -> In name (columns df)) /\
     dataframe_error (flat_map (labelled df) get_required_columns) =
       Some (type_name, message) /\
     main format dataframe_error read_excel uploaded_file [] =
       (Raised (DataframeError type_name message),
        opening ++ [st_header "Dados do Instagram" true])) \/
  (exists f df e,
     uploaded_file = Some f /\ read_excel f = inl df /\
     (forall name, In name get_required_columns -> In name (columns df)) /\
     dataframe_error (flat_map (labelled df) get_required_columns) = None /\
     ~ unique_labels df /\
     main format dataframe_error read_excel uploaded_file [] =
       (Raised e,
        opening ++ [st_header "Dados do Instagram" true;
                    st_dataframe (flat_map (labelled df) get_required_columns)
                      "dataframe-instagram" get_column_order get_column_config true])) \/
  (exists f df payload,
     uploaded_file = Some f /\ read_excel f = inl df /\
     (forall name, In name get_required_columns -> In name (columns df)) /\
     dataframe_error (flat_map (labelled df) get_required_columns) = None /\
     main format dataframe_error read_excel uploaded_file [] =
       (Ret tt,
        opening ++ [st_header "Dados do Instagram" true;
                    st_dataframe (flat_map (labelled df) get_required_columns)
                      "dataframe-instagram" get_column_order get_column_config true;
                    st_download_button "Exportar user/username como texto" payload
                      "usernames.txt" "text/plain"])).
Proof.
  destruct uploaded_file as [f|]; [|left; now split].
  right. destruct (read_excel f) as [df|e] eqn:Hr.
  2:{ left. exists f. eexists. split; [reflexivity|].
      split; [intros df H; congruence|].
      exact (main_load_error format dataframe_error read_excel f e Hr). }
  destruct (fst (validate_columns df get_required_columns [])) as [[|]| |] eqn:Hv.
  - right.
    assert (Hall : forall name, In name get_required_columns -> In name (columns df))
      by now apply (validate_columns_true df get_required_columns []).
    rewrite (main_valid format dataframe_error read_excel f df Hr Hall).
    assert (Hid : In "user/username" (columns df)) by (apply Hall; now left).
    destruct (dataframe_error (flat_map (labelled df) get_required_columns))
      as [[type_name message]|] eqn:Hde.
    { left. exists f, df, type_name, message. auto. }
    right.
    destruct (export_usernames_branch format df
                (opening ++ [st_header "Dados do Instagram" true;
                   st_dataframe (flat_map (labelled df) get_required_columns)
                     "dataframe-instagram" get_column_order get_column_config true])
                Hid) as [[payload Hp]|[e He]].
    + right. exists f, df, payload. rewrite Hp, <- app_assoc. auto.
    + left. exists f, df, e. rewrite He.
      split; [reflexivity|]. split; [exact Hr|]. split; [exact Hall|].
      split; [exact Hde|].
      split; [|reflexivity]. intros Hnd.
      destruct (In_columns df _ Hid) as [s Hs].
      rewrite (export_usernames_present format df s _ Hnd Hs) in He. discriminate.
  - left.
    destruct (main_invalid format dataframe_error read_excel f df [] Hr Hv)
      as [missing Hm].
    exists f. eexists. split; [reflexivity|]. split; [|exact Hm].
    intros df' Hr' Hall. assert (df' = df) by congruence. subst df'.
    apply (validate_columns_true df get_required_columns []) in Hall. congruence.
  - exfalso. unfold validate_columns in Hv.
    destruct (filter _ get_required_columns); discriminate.
  - exfalso. unfold validate_columns in Hv.
    destruct (filter _ get_required_columns); discriminate.
Qed.

(** X10: the whole run on a file that parses into a table with distinct
    labels carrying the six required names, when [st.dataframe] takes
    the six columns: [main] returns, and the page holds, in this order,
    the page configuration, the uploader, the header, the table of the
    six columns in required order, and the download of the URLs built
    from the identifier column; nothing else. *)
Theorem main_full_run (f : file) df s :
  read_excel f = inl df ->
  unique_labels df ->
  (forall name, In name get_required_columns -> In name (columns df)) ->
  In ("user/username", s) df ->
  dataframe_error (projection df get_required_columns) = None ->
  main format dataframe_error read_excel (Some f) [] =
    (Ret tt,
     [ st_set_page_config "Instagram Data Viewer" "✨" "wide";
       st_file_uploader "Escolha um arquivo XLSX" "xlsx";
       st_header "Dados do Instagram" true;
       st_dataframe (projection df get_required_columns) "dataframe-instagram"
         [ "user_profile_url"; "user/username"; "user/is_verified";
           "comment_like_count"; "text"; "created_at" ]
         get_column_config true;
       st_download_button "Exportar user/username como texto"
         (String.concat LF
            (map (fun v => ("https://www.instagram.com/" ++ fstring format v)%string)
                 (dropna s)))
         "usernames.txt" "text/plain" ]).
Proof.
  intros Hr Hnd Hall Hin Hde.
  rewrite (main_valid format dataframe_error read_excel f df Hr Hall).
  rewrite (labelled_projection df get_required_columns Hnd), Hde.
  now rewrite (export_usernames_present format df s _ Hnd Hin).
Qed.

(** X11: when the parser gives tables with distinct labels, a run of
    [main] ends on an exception only inside [st.dataframe]: the lookups
    in the table never fail, since the validator and the test on the
    identifier column come first.  The run returns exactly when a file
    was given, parsed and found to carry the six required names, and
    [st.dataframe] took the six columns. *)
Theorem main_raises_in_dataframe_only uploaded_file :
  (forall f df, read_excel f = inl df -> unique_labels df) ->
  (forall e,
     fst (main format dataframe_error read_excel uploaded_file []) = Raised e ->
     exists f df type_name message,
       uploaded_file = Some f /\ read_excel f = inl df /\
       dataframe_error (projection df get_required_columns) =
         Some (type_name, message) /\
       e = DataframeError type_name message) /\
  (fst (main format dataframe_error read_excel uploaded_file []) = Ret tt <->
   exists f df,
     uploaded_file = Some f /\ read_excel f = inl df /\
     (forall name, In name get_required_columns -> In name (columns df)) /\
     dataframe_error (projection df get_required_columns) = None).
Proof.
  intros Hparser.
  destruct (main_runs uploaded_file)
    as [[Hu Hm]
       |[[f [body [Hu [Hbad Hm]]]]
       |[[f [df [type_name [message [Hu [Hr [Hall [Hde Hm]]]]]]]]
       |[[f [df [e [Hu [Hr [Hall [Hde [Hdup Hm]]]]]]]]
       |[f [df [payload [Hu [Hr [Hall [Hde Hm]]]]]]]]]]];
    rewrite Hm; cbn [fst snd].
  - split; [discriminate|]. split; [discriminate|].
    intros [f [df [Hf _]]]. congruence.
  - split; [discriminate|]. split; [discriminate|].
    intros [f' [df [Hf [Hr [Hall _]]]]]. exfalso.
    rewrite Hu in Hf. injection Hf as <-. exact (Hbad df Hr Hall).
  - rewrite (labelled_projection df _ (Hparser f df Hr)) in Hde. split.
    + intros e He. injection He as <-. exists f, df, type_name, message. auto.
    + split; [discriminate|].
      intros [f' [df' [Hf [Hr' [_ Hnone]]]]]. exfalso.
      rewrite Hu in Hf. injection Hf as Hf. subst f'.
      rewrite Hr in Hr'. injection Hr' as Hr'. subst df'.
      rewrite Hde in Hnone. discriminate Hnone.
  - exfalso. apply Hdup. exact (Hparser f df Hr).
  - rewrite (labelled_projection df _ (Hparser f df Hr)) in Hde.
    split; [discriminate|]. split; [|reflexivity].
    intros _. now exists f, df.
Qed.

(** X12: every run starts with the page configuration followed by the
    file uploader, and calls neither of them again. *)
Theorem main_opens_once uploaded_file :
  exists rest,
    snd (main format dataframe_error read_excel uploaded_file []) =
      st_set_page_config "Instagram Data Viewer" "✨" "wide"
        :: st_file_uploader "Escolha um arquivo XLSX" "xlsx" :: rest /\
    forallb (fun e => negb (is_setup e)) rest = true.
Proof.
  destruct (main_runs uploaded_file)
    as [[Hu Hm]
       |[[f [body [Hu [Hbad Hm]]]]
       |[[f [df [type_name [message [Hu [Hr [Hall [Hde Hm]]]]]]]]
       |[[f [df [e [Hu [Hr [Hall [Hde [Hdup Hm]]]]]]]]
       |[f [df [payload [Hu [Hr [Hall [Hde Hm]]]]]]]]]]];
    rewrite Hm; simpl; eexists; split; reflexivity.
Qed.

(** X13: a run puts at most one error on the page.  A run with an error
    on its page was given a file, is stopped, and shows neither the
    table nor the download; a run that returns shows both and no
    error. *)
Theorem main_errors uploaded_file :
  List.length (filter is_error (snd (main format dataframe_error read_excel uploaded_file []))) <= 1 /\
  (existsb is_error (snd (main format dataframe_error read_excel uploaded_file [])) = true ->
   fst (main format dataframe_error read_excel uploaded_file []) = Stopped /\
   uploaded_file <> None /\
   existsb is_table (snd (main format dataframe_error read_excel uploaded_file [])) = false /\
   existsb is_download (snd (main format dataframe_error read_excel uploaded_file [])) = false) /\
  (fst (main format dataframe_error read_excel uploaded_file []) = Ret tt ->
   existsb is_error (snd (main format dataframe_error read_excel uploaded_file [])) = false /\
   existsb is_table (snd (main format dataframe_error read_excel uploaded_file [])) = true /\
   existsb is_download (snd (main format dataframe_error read_excel uploaded_file [])) = true).
Proof.
  destruct (main_runs uploaded_file)
    as [[Hu Hm]
       |[[f [body [Hu [Hbad Hm]]]]
       |[[f [df [type_name [message [Hu [Hr [Hall [Hde Hm]]]]]]]]
       |[[f [df [e [Hu [Hr [Hall [Hde [Hdup Hm]]]]]]]]
       |[f [df [payload [Hu [Hr [Hall [Hde Hm]]]]]]]]]]];
    rewrite Hm; simpl; subst uploaded_file.
  - split; [apply Nat.le_0_l|]. split; [discriminate | discriminate].
  - split; [apply le_n|]. split; [|discriminate].
    intros _. repeat split. discriminate.
  - split; [apply Nat.le_0_l|]. split; [discriminate | discriminate].
  - split; [apply Nat.le_0_l|]. split; [discriminate | discriminate].
  - split; [apply Nat.le_0_l|]. split; [discriminate|]. intros _. repeat split.
Qed.

End Running.

(** ** The further properties on the sample tables *)

Section FurtherWitnesses.

Import Samples.

Lemma read_sample_unique (f : string) (df : DataFrame py) :
  read_sample f = inl df -> unique_labels df.
Proof.
  unfold read_sample.
  destruct (String.eqb f "comments.xlsx");
    [intros H; injection H as <-; apply distinct_NoDup; reflexivity|].
  destruct (String.eqb f "partial.xlsx");
    [intros H; injection H as <-; apply distinct_NoDup; reflexivity|].
  discriminate.
Qed.

Lemma load_data_reports_witness :
  exists e,
    read_sample "broken.xlsx" = inr e /\
    load_data read_sample "broken.xlsx" [] =
      (Ret None, [st_error ("Erro ao carregar arquivo: " ++ e)%string]).
Proof.
  destruct (load_data_reports read_sample "broken.xlsx" [])
    as [r [page' [He [_ [_ Hnone]]]]].
  injection He as Hr Hp.
  destruct (Hnone (eq_sym Hr)) as [e [Hread _]].
  exists e. split; [exact Hread|].
  injection Hread as <-. reflexivity.
Defined.

Lemma validate_columns_any_list_witness :
  exists missing,
    validate_columns partial ["text"; "created_at"; "text"; "likes"; "created_at"] [] =
      (Ret false, [st_error (missing_message ++ repr_list missing)%string]) /\
    In "created_at" missing /\ ~ In "text" missing.
Proof.
  destruct (validate_columns_any_list partial
              ["text"; "created_at"; "text"; "likes"; "created_at"] [])
    as [ok [missing [He [_ [Hin _]]]]].
  { repeat constructor. }
  destruct ok; [discriminate He|].
  exists missing. split; [exact He|]. split.
  - apply Hin. split; [simpl; auto | apply contains_false; reflexivity].
  - intros Hm. apply Hin in Hm. destruct Hm as [_ Hout]. apply Hout. simpl. auto.
Defined.

Lemma validate_columns_labels_only_witness :
  validate_columns comments get_required_columns [] =
  validate_columns comments_reordered get_required_columns [].
Proof.
  apply (validate_columns_labels_only comments comments_reordered
           get_required_columns []).
  intros name. unfold comments_reordered, columns. rewrite map_rev. apply in_rev.
Defined.

Lemma display_data_missing_column_witness :
  exists missing,
    display_data sample_dataframe_error partial get_required_columns [] =
      (Raised (KeyError missing), [st_header "Dados do Instagram" true]) /\
    In "created_at" missing.
Proof.
  destruct (display_data_missing_column sample_dataframe_error partial
              get_required_columns [])
    as [missing [He [_ Hin]]].
  - exact required_columns_NoDup.
  - repeat constructor.
  - exists "created_at".
    split; [apply contains_In; reflexivity | apply contains_false; reflexivity].
  - exists missing. split; [exact He|]. apply Hin.
    split; [apply contains_In; reflexivity | apply contains_false; reflexivity].
Defined.

Lemma validate_guards_display_witness :
  fst (display_data sample_dataframe_error comments get_required_columns []) = Ret tt /\
  (exists labels,
     fst (display_data sample_dataframe_error partial get_required_columns []) =
       Raised (KeyError labels)) /\
  fst (display_data sample_dataframe_error doubled ["user/username"] []) <> Ret tt.
Proof.
  split; [|split].
  - apply (validate_guards_display sample_dataframe_error comments
             get_required_columns [] []).
    split; reflexivity.
  - apply (validate_guards_display sample_dataframe_error partial
             get_required_columns [] []).
    reflexivity.
  - intros H.
    apply (validate_guards_display sample_dataframe_error doubled
             ["user/username"] [] []) in H.
    destruct H as [_ H]. discriminate H.
Defined.

Lemma export_usernames_doubled_witness :
  export_usernames str doubled [] =
    (Raised (AttributeError "'DataFrame' object has no attribute 'tolist'"), []).
Proof.
  apply (export_usernames_doubled str doubled []). simpl. apply le_n.
Defined.

Lemma export_usernames_empty_payload_witness :
  exists payload,
    export_usernames str blank [] =
      (Ret tt,
       [st_download_button "Exportar user/username como texto" payload
          "usernames.txt" "text/plain"]) /\
    payload = "".
Proof.
  destruct (export_usernames_empty_payload str blank [None; None] [])
    as [payload [He Hiff]].
  - apply distinct_NoDup. reflexivity.
  - now left.
  - exists payload. split; [exact He|]. apply Hiff.
    intros c [<-|[<-|[]]]; reflexivity.
Defined.

Lemma export_usernames_appended_witness :
  export_usernames str all_rows [] =
    (Ret tt,
     [st_download_button "Exportar user/username como texto"
        ("https://www.instagram.com/alice" ++ LF ++ "https://www.instagram.com/bob"
           ++ LF ++ "https://www.instagram.com/carol")%string
        "usernames.txt" "text/plain"]).
Proof.
  refine (export_usernames_appended str first_rows last_rows all_rows
            [text "alice"; None] [None; text "bob"; text "carol"]
            "https://www.instagram.com/alice"
            ("https://www.instagram.com/bob" ++ LF ++ "https://www.instagram.com/carol")
            [] _ _ _ _ _ _ eq_refl eq_refl);
    try (apply distinct_NoDup; reflexivity); now left.
Defined.

Lemma export_usernames_lines_witness :
  exists payload,
    export_usernames str comments [] =
      (Ret tt,
       [st_download_button "Exportar user/username como texto" payload
          "usernames.txt" "text/plain"]) /\
    split_lines payload =
      ["https://www.instagram.com/alice"; "https://www.instagram.com/bob"].
Proof.
  destruct (export_usernames_lines str comments [text "alice"; None; text "bob"] [])
    as [payload [He [Hs _]]].
  - apply distinct_NoDup. reflexivity.
  - simpl. auto.
  - exists (Str "alice"). now left.
  - intros v [H|[H|[H|[]]]]; try discriminate H; injection H as <-; reflexivity.
  - exists payload. split; [exact He | exact Hs].
Defined.

Lemma main_full_run_witness :
  fst (main str sample_dataframe_error read_sample (Some "comments.xlsx") []) = Ret tt /\
  List.length (snd (main str sample_dataframe_error read_sample
                      (Some "comments.xlsx") [])) = 5.
Proof.
  rewrite (main_full_run str sample_dataframe_error read_sample "comments.xlsx"
             comments [text "alice"; None; text "bob"]).
  - split; reflexivity.
  - reflexivity.
  - apply distinct_NoDup. reflexivity.
  - apply carries_all_spec. reflexivity.
  - simpl. auto.
  - reflexivity.
Defined.

Lemma main_raises_in_dataframe_only_witness :
  (forall e,
     fst (main str sample_dataframe_error read_sample (Some "partial.xlsx") []) <>
       Raised e) /\
  fst (main str sample_dataframe_error read_sample (Some "comments.xlsx") []) = Ret tt.
Proof.
  split.
  - intros e He.
    destruct (proj1 (main_raises_in_dataframe_only str sample_dataframe_error
                       read_sample (Some "partial.xlsx") read_sample_unique) e He)
      as [f [df [type_name [message [Hf [Hr [Hde _]]]]]]].
    injection Hf as <-. injection Hr as <-. discriminate Hde.
  - apply (main_raises_in_dataframe_only str sample_dataframe_error read_sample
             (Some "comments.xlsx") read_sample_unique).
    exists "comments.xlsx", comments.
    split; [reflexivity|]. split; [reflexivity|].
    split; [apply carries_all_spec; reflexivity | reflexivity].
Defined.

Lemma main_errors_witness :
  fst (main str sample_dataframe_error read_sample (Some "partial.xlsx") []) = Stopped /\
  existsb is_table (snd (main str sample_dataframe_error read_sample (Some "partial.xlsx") [])) = false /\
  existsb is_error (snd (main str sample_dataframe_error read_sample (Some "comments.xlsx") [])) = false.
Proof.
  destruct (main_errors str sample_dataframe_error read_sample (Some "partial.xlsx"))
    as [_ [Herr _]].
  destruct (Herr eq_refl) as [Hs [_ [Ht _]]].
  destruct (main_errors str sample_dataframe_error read_sample (Some "comments.xlsx"))
    as [_ [_ Hret]].
  destruct (Hret eq_refl) as [He _].
  split; [exact Hs|]. split; [exact Ht | exact He].
Defined.

End FurtherWitnesses.
